(** * Instruction-dataset sample preparation (torchtune fork)

    A shallow embedding of [_instruct_templates.py] and [_instruct.py]:
    the two prompt templates, the two dataset classes with their
    [_prepare_sample] method, and the two builder functions, followed by
    the properties of the specification that were checked against them. *)

From stdpp Require Import base option list gmap strings.
From Stdlib Require Import ZArith Ascii Lia.

Local Open Scope Z_scope.

(** ** Python values, exceptions and dictionaries *)

(** The values a sample field holds: text, or [None] (the check
    [example['output'] is not None] in [ISSAIInstructDataset._clear]
    shows that fields may be [None]). *)
Inductive pyval :=
| VStr (s : string)
| VNone.

#[global] Instance pyval_eq_dec : EqDecision pyval.
Proof. solve_decision. Defined.

(** Exceptions.  [OtherError] stands for whatever an external collaborator
    raises; [Unmodelled] marks format-string syntax outside the fragment
    that [py_format] covers. *)
Inductive PyError :=
| KeyError (key : string)
| ValueError (msg : string)
| TypeError (msg : string)
| IndexError
| AssertionError
| OtherError (name : string)
| Unmodelled.

#[global] Instance PyError_eq_dec : EqDecision PyError.
Proof. solve_decision. Defined.

(** The outcome of a Python expression: a value or a raised exception. *)
Inductive Res (A : Type) :=
| Ok (a : A)
| Err (e : PyError).
Arguments Ok {A} a.
Arguments Err {A} e.

#[global] Instance Res_ret : MRet Res := @Ok.
#[global] Instance Res_bind : MBind Res := λ A B f m,
  match m with Ok a => f a | Err e => Err e end.
#[global] Instance Res_fmap : FMap Res := λ A B f m,
  match m with Ok a => Ok (f a) | Err e => Err e end.

Definition is_Ok {A} (r : Res A) : bool :=
  match r with Ok _ => true | Err _ => false end.

(** A sample is a [Mapping[str, Any]]; a column map is an
    [Optional[Dict[str, str]]]. *)
Abbreviation Sample := (gmap string pyval).
Abbreviation ColumnMap := (gmap string string).

(** [d[k]]: subscription raises [KeyError]. *)
Definition subscript {V} (d : gmap string V) (k : string) : Res V :=
  match d !! k with
  | Some v => Ok v
  | None => Err (KeyError k)
  end.

(** [d.get(k, dflt)]. *)
Definition dict_get (d : ColumnMap) (k dflt : string) : string :=
  match d !! k with
  | Some v => v
  | None => dflt
  end.

(** Truthiness of an optional dictionary: [None] and [{}] are falsy. *)
Definition truthy (cm : option ColumnMap) : bool :=
  match cm with
  | Some d => negb (bool_decide (d = ∅))
  | None => false
  end.

(** [column_map or {}]. *)
Definition or_empty (cm : option ColumnMap) : ColumnMap :=
  match cm with
  | Some d => if truthy cm then d else ∅
  | None => ∅
  end.

(** ** [str.format] with keyword arguments only *)

Definition newline : string := String (ascii_of_nat 10) EmptyString.

(** [str(v)], which is what an empty format spec applies to [v]. *)
Definition py_str (v : pyval) : string :=
  match v with
  | VStr s => s
  | VNone => "None"
  end.

Definition is_digit (c : ascii) : bool :=
  ((48 <=? nat_of_ascii c) && (nat_of_ascii c <=? 57))%nat.

Fixpoint all_digits (s : string) : bool :=
  match s with
  | EmptyString => true
  | String c r => is_digit c && all_digits r
  end.

(** Characters that start attribute access, indexing, a conversion, a
    format spec or a nested field. *)
Definition field_special (c : ascii) : bool :=
  (Ascii.eqb c "." || Ascii.eqb c "[" || Ascii.eqb c "!" ||
   Ascii.eqb c ":" || Ascii.eqb c "{")%char.

Fixpoint kw_lookup (kw : list (string * pyval)) (name : string) : option pyval :=
  match kw with
  | [] => None
  | (k, v) :: r => if String.eqb k name then Some v else kw_lookup r name
  end.

(** A replacement field whose name is complete.  No positional arguments
    are ever passed by the templates, so an empty or numeric name is out of
    range. *)
Definition replace_field (kw : list (string * pyval)) (name : string) : Res string :=
  if String.eqb name "" || all_digits name then Err IndexError
  else match kw_lookup kw name with
       | Some v => Ok (py_str v)
       | None => Err (KeyError name)
       end.

(** The scanner of [fmt.format] called with keyword arguments [kw], left to
    right.  [field] is [None]
    in literal text and [Some name] inside braces with [name] read so
    far. *)
Fixpoint py_format_from (fmt : string) (field : option string)
    (kw : list (string * pyval)) : Res string :=
  match fmt with
  | EmptyString =>
      match field with
      | None => Ok EmptyString
      | Some _ => Err (ValueError "expected '}' before end of string")
      end
  | String c rest =>
      match field with
      | None =>
          if Ascii.eqb c "{" then
            match rest with
            | String c' rest' =>
                if Ascii.eqb c' "{"
                then String "{" <$> py_format_from rest' None kw
                else py_format_from rest (Some EmptyString) kw
            | EmptyString => Err (ValueError "Single '{' encountered in format string")
            end
          else if Ascii.eqb c "}" then
            match rest with
            | String c' rest' =>
                if Ascii.eqb c' "}"
                then String "}" <$> py_format_from rest' None kw
                else Err (ValueError "Single '}' encountered in format string")
            | EmptyString => Err (ValueError "Single '}' encountered in format string")
            end
          else String c <$> py_format_from rest None kw
      | Some name =>
          if Ascii.eqb c "}" then
            s ← replace_field kw name;
            (String.append s) <$> py_format_from rest None kw
          else if field_special c then Err Unmodelled
          else py_format_from rest (Some (name +:+ String c EmptyString)) kw
      end
  end.

Definition py_format (fmt : string) (kw : list (string * pyval)) : Res string :=
  py_format_from fmt None kw.

(** The integers a [numpy] array of dtype [int64] holds: a list of Python
    ints becomes such an array exactly when every element is one of them. *)
Definition fits_int64 (t : Z) : bool :=
  (- 2 ^ 63 <=? t) && (t <? 2 ^ 63).

Definition all_fit_int64 (y : list Z) : bool := forallb fits_int64 y.

(** Modelled from the spec: the constant [CROSS_ENTROPY_IGNORE_IDX] is
    imported from [torchtune.data] and not defined in these files; the spec
    gives the sentinel as -100, and so does the docstring of
    [InstructDataset] ("tokens replaced with -100"). *)
Definition CROSS_ENTROPY_IGNORE_IDX : Z := -100.

(** ** Messages and the external collaborators *)

(** Modelled from the spec: the class [Message] is imported from
    [torchtune.data]; a message is role, content and masked flag, and
    [masked] defaults to [False] when the constructor call omits it. *)
Record Message := mkMessage {
  role : string;
  content : pyval;
  masked : bool;
}.

#[global] Instance Message_eq_dec : EqDecision Message.
Proof. solve_decision. Defined.

Definition Message_default_masked : bool := false.

(** What the files import and call but do not define: the state the
    tokenizer library keeps between calls, [validate_messages],
    [load_dataset], and what [np.where] puts at one position when the ids
    do not all fit [int64].  In that case [numpy] builds an array of another
    dtype (uint64, float64 or object, depending on its version), so that
    the sentinel may wrap and the ids may be rounded; [np_where_wide y x c t]
    is the entry it yields for the element [t] of [y] under condition [c]
    and scalar [x]. *)
Class Collaborators := {
  tok_state : Type;
  validate_messages : list Message → Res unit;
  load_dataset : string → string → Res (list Sample);
  np_where_wide : list Z → Z → bool → Z → Z;
}.

Section Runtime.
Context `{Collaborators}.

(** [np.where(condition, x, y)] for a scalar [x] and one-dimensional
    [condition] and [y], as [numpy] documents it.  The list [y] is first
    made an array: of dtype [int64], holding the ids as they are, when they
    all fit, and of a wider dtype otherwise.  The operands are then
    broadcast together, so equal lengths give the element-wise choice, a
    length-one operand is stretched to the length of the other, and any
    other pair of lengths raises [ValueError]. *)
Definition np_where (condition : list bool) (x : Z) (y : list Z) : Res (list Z) :=
  let choose : bool → Z → Z :=
    if all_fit_int64 y then (λ c t, if c then x else t) else np_where_wide y x in
  if (length condition =? length y)%nat then Ok (zip_with choose condition y)
  else match condition, y with
       | [c], _ => Ok (map (choose c) y)
       | _, [t] => Ok (map (λ c, choose c t) condition)
       | _, _ => Err (ValueError "operands could not be broadcast together")
       end.

(** Calls to the collaborators that take the messages, with what the
    tokenizer answered. *)
Inductive Call :=
| CallValidate (messages : list Message)
| CallTokenize (messages : list Message) (answer : Res (list Z * list bool)).

(** The state a call can touch: the tokenizer's own state and a log of the
    calls made to the validator and the tokenizer, oldest first. *)
Record World := mkWorld {
  tok : tok_state;
  calls : list Call;
}.

(** Computations that may raise and may touch the world. *)
Definition M (A : Type) : Type := World → Res A * World.

#[global] Instance M_ret : MRet M := λ A a w, (Ok a, w).
#[global] Instance M_bind : MBind M := λ A B f m w,
  match m w with
  | (Ok a, w') => f a w'
  | (Err e, w') => (Err e, w')
  end.

(** A computation without effect on the world. *)
Definition lift {A} (r : Res A) : M A := λ w, (r, w).

Definition raise {A} (e : PyError) : M A := lift (Err e).

(** [validate_messages(messages)], logged. *)
Definition call_validate_messages (messages : list Message) : M unit := λ w,
  (validate_messages messages,
   {| tok := tok w; calls := calls w ++ [CallValidate messages] |}).

(** ** Template classes *)

Inductive ClassId :=
| object_id
| ABC_id
| InstructTemplate_id
| AlpacaInstructTemplate_id
| LlamaInstructTemplate_id
| user_class_id (name : string).

#[global] Instance ClassId_eq_dec : EqDecision ClassId.
Proof. solve_decision. Defined.

(** The class attribute [template]: the base class holds a string, the two
    subclasses a dictionary of format strings. *)
Inductive ClassAttr :=
| AttrStr (s : string)
| AttrDict (d : gmap string string).

(** [cls.template[k]]. *)
Definition attr_subscript (a : ClassAttr) (k : string) : Res string :=
  match a with
  | AttrDict d => subscript d k
  | AttrStr _ => Err (TypeError "string indices must be integers")
  end.

(** A class usable as [template]: its identity, the rest of its method
    resolution order, whether abstract methods are left unimplemented, its
    [template] attribute and its class method [format].  The method reads
    [cls] only through [cls.template], which it therefore receives. *)
Record TemplateClass := mkTemplateClass {
  cls_id : ClassId;
  cls_bases : list ClassId;
  cls_abstract : bool;
  cls_template : ClassAttr;
  cls_format : ClassAttr → Sample → option ColumnMap → M pyval;
}.

(** [template.format(sample, column_map)]. *)
Definition format (t : TemplateClass) (sample : Sample)
    (column_map : option ColumnMap) : M pyval :=
  cls_format t (cls_template t) sample column_map.

(** [InstructTemplate.format]: the body is [pass]. *)
Definition InstructTemplate_format (template : ClassAttr) (sample : Sample)
    (column_map : option ColumnMap) : M pyval :=
  mret VNone.

Definition InstructTemplate : TemplateClass := {|
  cls_id := InstructTemplate_id;
  cls_bases := [ABC_id; object_id];
  cls_abstract := true;
  cls_template := AttrStr "";
  cls_format := InstructTemplate_format;
|}.

Definition AlpacaInstructTemplate_template : gmap string string :=
  {[ "prompt_input" :=
       "Below is an instruction that describes a task, paired with an input that provides further context. "
       +:+ "Write a response that appropriately completes the request." +:+ newline +:+ newline
       +:+ "### Instruction:" +:+ newline +:+ "{instruction}" +:+ newline +:+ newline
       +:+ "### Input:" +:+ newline +:+ "{input}" +:+ newline +:+ newline
       +:+ "### Response:" +:+ newline;
     "prompt_no_input" :=
       "Below is an instruction that describes a task. "
       +:+ "Write a response that appropriately completes the request." +:+ newline +:+ newline
       +:+ "### Instruction:" +:+ newline +:+ "{instruction}" +:+ newline +:+ newline
       +:+ "### Response:" +:+ newline;
     "prompt_issai" :=
       "Below is an instruction that describes a task. "
       +:+ "Write a response that appropriately completes the request." +:+ newline +:+ newline
       +:+ "### Instruction:" +:+ newline +:+ "{instruction}" +:+ newline +:+ "{input}" +:+ newline +:+ newline
       +:+ "### Response:" +:+ newline ]}.

(** [AlpacaInstructTemplate.format].  The format string is fetched before
    the keyword arguments are evaluated, instruction first. *)
Definition AlpacaInstructTemplate_format (template : ClassAttr) (sample : Sample)
    (column_map : option ColumnMap) : M pyval :=
  let column_map := or_empty column_map in
  let key_input := dict_get column_map "input" "input" in
  let key_instruction := dict_get column_map "instruction" "instruction" in
  fmt ← lift (attr_subscript template "prompt_issai");
  instruction ← lift (subscript sample key_instruction);
  input ← lift (subscript sample key_input);
  prompt ← lift (py_format fmt [("instruction", instruction); ("input", input)]);
  mret (VStr prompt).

Definition AlpacaInstructTemplate : TemplateClass := {|
  cls_id := AlpacaInstructTemplate_id;
  cls_bases := [InstructTemplate_id; ABC_id; object_id];
  cls_abstract := false;
  cls_template := AttrDict AlpacaInstructTemplate_template;
  cls_format := AlpacaInstructTemplate_format;
|}.

Definition LlamaInstructTemplate_template : gmap string string :=
  {[ "llama_orig" :=
       "<|start_header_id|>system<|end_header_id|>" +:+ newline +:+ newline
       +:+ "Cutting Knowledge Date: December 2023" +:+ newline
       +:+ "Today Date: 23 July 2024" +:+ newline +:+ newline
       +:+ "You are a helpful assistant"
       +:+ "<|start_header_id|>user<|end_header_id|>" +:+ newline +:+ newline
       +:+ "{instruction}" +:+ newline +:+ "{input}" +:+ newline
       +:+ "<|start_header_id|>assistant<|end_header_id|>" ]}.

(** [LlamaInstructTemplate.format]. *)
Definition LlamaInstructTemplate_format (template : ClassAttr) (sample : Sample)
    (column_map : option ColumnMap) : M pyval :=
  let column_map := or_empty column_map in
  let key_input := dict_get column_map "input" "input" in
  let key_instruction := dict_get column_map "instruction" "instruction" in
  fmt ← lift (attr_subscript template "llama_orig");
  instruction ← lift (subscript sample key_instruction);
  input ← lift (subscript sample key_input);
  prompt ← lift (py_format fmt [("instruction", instruction); ("input", input)]);
  mret (VStr prompt).

Definition LlamaInstructTemplate : TemplateClass := {|
  cls_id := LlamaInstructTemplate_id;
  cls_bases := [InstructTemplate_id; ABC_id; object_id];
  cls_abstract := false;
  cls_template := AttrDict LlamaInstructTemplate_template;
  cls_format := LlamaInstructTemplate_format;
|}.

(** [template()]: a class with unimplemented abstract methods cannot be
    instantiated; otherwise the instance remembers its class. *)
Definition instantiate (template : TemplateClass) : Res TemplateClass :=
  if cls_abstract template
  then Err (TypeError "Can't instantiate abstract class")
  else Ok template.

(** [isinstance(obj, C)] for an instance [obj] of class [type_of]. *)
Definition isinstance (type_of : TemplateClass) (C : ClassId) : bool :=
  bool_decide (C ∈ cls_id type_of :: cls_bases type_of).

End Runtime.

(** ** The tokenizer *)

Module ModelTokenizer.
Section Defs.
Context `{Collaborators}.

(** What the files use of a [ModelTokenizer]: the method
    [tokenize_messages], which may read and update the tokenizer's state,
    and the attributes [max_seq_len] and [pad_id]. *)
Record t := mk {
  tokenize_messages : list Message → tok_state → Res (list Z * list bool) * tok_state;
  max_seq_len : option Z;
  pad_id : Z;
}.

(** [tokenizer.tokenize_messages(messages)] as a computation: the call is
    logged and the tokenizer's state replaced by the one it returns. *)
Definition call_tokenize_messages (tokenizer : t) (messages : list Message)
    : M (list Z * list bool) := λ w,
  let '(r, s) := tokenize_messages tokenizer messages (tok w) in
  (r, {| tok := s; calls := calls w ++ [CallTokenize messages r] |}).

End Defs.
End ModelTokenizer.

(** ** Parts shared by the text of both classes *)

Section Shared.
Context `{Collaborators}.

(** [self._data[index]] on a sequence: negative indices count from the
    end, anything else out of range raises [IndexError]. *)
Definition data_subscript (data : list Sample) (index : Z) : Res Sample :=
  let n := Z.of_nat (length data) in
  let i := if index <? 0 then index + n else index in
  if (0 <=? i) && (i <? n)
  then match data !! Z.to_nat i with
       | Some s => Ok s
       | None => Err IndexError
       end
  else Err IndexError.

(** [assert cond]. *)
Definition py_assert (cond : bool) : M unit :=
  if cond then mret () else raise AssertionError.

End Shared.

(** ** [InstructDataset] *)

Module InstructDataset.
Section Defs.
Context `{Collaborators}.

Record t := mk {
  _tokenizer : ModelTokenizer.t;
  _data : list Sample;
  template : TemplateClass;
  _transform : option (Sample → Res Sample);
  _column_map : option ColumnMap;
  train_on_input : bool;
  max_seq_len : option Z;
}.

Definition __init__ (data_files : string) (tokenizer : ModelTokenizer.t)
    (source : string) (template : TemplateClass)
    (transform : option (Sample → Res Sample))
    (column_map : option ColumnMap) (train_on_input : bool)
    (max_seq_len : option Z) : Res t :=
  instance ← instantiate template;
  if negb (isinstance instance AlpacaInstructTemplate_id)
  then Err (ValueError "template must be an InstructTemplate class")
  else
    data ← load_dataset source data_files;
    Ok {| _tokenizer := tokenizer;
          _data := data;
          template := template;
          _transform := transform;
          _column_map := column_map;
          train_on_input := train_on_input;
          max_seq_len := max_seq_len |}.

Definition __len__ (self : t) : nat := length (_data self).

Definition _prepare_sample (self : t) (sample : Sample)
    : M (gmap string (list Z)) :=
  transformed_sample ←
    match _transform self with
    | Some transform => lift (transform sample)
    | None => mret sample
    end;
  prompt ← format (template self) transformed_sample (_column_map self);
  key_output ←
    match _column_map self with
    | Some column_map =>
        if truthy (_column_map self) && bool_decide (is_Some (column_map !! "output"))
        then lift (subscript column_map "output")
        else mret "output"
    | None => mret "output"
    end;
  let user := mkMessage "user" prompt (negb (train_on_input self)) in
  output ← lift (subscript transformed_sample key_output);
  let assistant := mkMessage "assistant" output Message_default_masked in
  let messages := [user; assistant] in
  _ ← call_validate_messages messages;
  '(tokens, mask) ← ModelTokenizer.call_tokenize_messages (_tokenizer self) messages;
  labels ← lift (np_where mask CROSS_ENTROPY_IGNORE_IDX tokens);
  _ ← py_assert (length tokens =? length labels)%nat;
  mret ({[ "tokens" := tokens; "labels" := labels ]} : gmap string (list Z)).

Definition __getitem__ (self : t) (index : Z) : M (gmap string (list Z)) :=
  sample ← lift (data_subscript (_data self) index);
  _prepare_sample self sample.

End Defs.
End InstructDataset.

(** ** [ISSAIInstructDataset] *)

Module ISSAIInstructDataset.
Section Defs.
Context `{Collaborators}.

Record t := mk {
  _tokenizer : ModelTokenizer.t;
  _data : list Sample;
  template : TemplateClass;
  _transform : option (Sample → Res Sample);
  _column_map : option ColumnMap;
  train_on_input : bool;
  max_seq_len : option Z;
}.

Definition __init__ (tokenizer : ModelTokenizer.t) (data : list Sample)
    (template : TemplateClass)
    (transform : option (Sample → Res Sample))
    (column_map : option ColumnMap) (train_on_input : bool)
    (max_seq_len : option Z) : Res t :=
  instance ← instantiate template;
  if negb (isinstance instance InstructTemplate_id)
  then Err (ValueError "template must be an InstructTemplate class")
  else
    Ok {| _tokenizer := tokenizer;
          _data := data;
          template := template;
          _transform := transform;
          _column_map := column_map;
          train_on_input := train_on_input;
          max_seq_len := max_seq_len |}.

(** [example['output'] is not None]. *)
Definition _clear (example : Sample) : Res bool :=
  output ← subscript example "output";
  Ok (negb (bool_decide (output = VNone))).

Definition __len__ (self : t) : nat := length (_data self).

Definition _prepare_sample (self : t) (sample : Sample)
    : M (gmap string (list Z)) :=
  transformed_sample ←
    match _transform self with
    | Some transform => lift (transform sample)
    | None => mret sample
    end;
  prompt ← format (template self) transformed_sample (_column_map self);
  key_output ←
    match _column_map self with
    | Some column_map =>
        if truthy (_column_map self) && bool_decide (is_Some (column_map !! "output"))
        then lift (subscript column_map "output")
        else mret "output"
    | None => mret "output"
    end;
  let user := mkMessage "user" prompt (negb (train_on_input self)) in
  output ← lift (subscript transformed_sample key_output);
  let assistant := mkMessage "assistant" output Message_default_masked in
  let messages := [user; assistant] in
  _ ← call_validate_messages messages;
  '(tokens, mask) ← ModelTokenizer.call_tokenize_messages (_tokenizer self) messages;
  labels ← lift (np_where mask CROSS_ENTROPY_IGNORE_IDX tokens);
  _ ← py_assert (length tokens =? length labels)%nat;
  mret ({[ "tokens" := tokens; "labels" := labels ]} : gmap string (list Z)).

Definition __getitem__ (self : t) (index : Z) : M (gmap string (list Z)) :=
  sample ← lift (data_subscript (_data self) index);
  _prepare_sample self sample.

End Defs.
End ISSAIInstructDataset.

(** ** The builder functions *)

Section Builders.
Context `{Collaborators}.

(** Either dataset class, as [PackedDataset] and [NotPackedDataset] receive
    it. *)
Inductive AnyDataset :=
| OfInstructDataset (ds : InstructDataset.t)
| OfISSAIInstructDataset (ds : ISSAIInstructDataset.t).

(** Imported and called, not defined in these files: the component lookup
    by dotted path, the message transform and the two wrapper classes.  The
    wrappers take the dataset, [max_seq_len] and [padding_idx] ([None] in
    the last place when the call leaves the keyword out); their constructors
    may run the dataset and so may touch the world. *)
Variable _get_component_from_path : string → Res TemplateClass.
Variable InputOutputToMessages : bool → option ColumnMap → option string → Res unit.
Variables PackedT NotPackedT : Type.
Variable PackedDataset : AnyDataset → option Z → option Z → M PackedT.
Variable NotPackedDataset : AnyDataset → option Z → option Z → M NotPackedT.

Inductive Built :=
| IsPacked (ds : PackedT)
| IsNotPacked (ds : NotPackedT).

Definition instruct_dataset (tokenizer : ModelTokenizer.t)
    (data_files source : string) (column_map : option ColumnMap)
    (train_on_input : bool) (new_system_prompt : option string)
    (packed : bool) (max_seq_len : option Z) (template : string) : M Built :=
  message_transform ← lift (InputOutputToMessages train_on_input column_map new_system_prompt);
  template_cls ← lift (_get_component_from_path template);
  ds ← lift (InstructDataset.__init__ data_files tokenizer source template_cls
               None column_map train_on_input max_seq_len);
  if packed then
    match ModelTokenizer.max_seq_len tokenizer with
    | None => raise (ValueError "PackedDataset requires a max_seq_len to be set on the tokenizer.")
    | Some n =>
        p ← PackedDataset (OfInstructDataset ds) (Some n) None;
        mret (IsPacked p)
    end
  else
    n ← NotPackedDataset (OfInstructDataset ds) max_seq_len
          (Some (ModelTokenizer.pad_id tokenizer));
    mret (IsNotPacked n).

Definition issai_instruct_dataset (data : list Sample)
    (tokenizer : ModelTokenizer.t) (template : string)
    (column_map : option ColumnMap) (train_on_input : bool)
    (max_seq_len : option Z) (packed : bool) : M Built :=
  template_cls ← lift (_get_component_from_path template);
  ds ← lift (ISSAIInstructDataset.__init__ tokenizer data template_cls
               None column_map train_on_input max_seq_len);
  if packed then
    p ← PackedDataset (OfISSAIInstructDataset ds) max_seq_len
          (Some (ModelTokenizer.pad_id tokenizer));
    mret (IsPacked p)
  else
    n ← NotPackedDataset (OfISSAIInstructDataset ds) max_seq_len
          (Some (ModelTokenizer.pad_id tokenizer));
    mret (IsNotPacked n).

End Builders.

(** ** Either dataset class behind one interface *)

Section Dispatch.
Context `{Collaborators}.

Definition tokenizer_of (ds : AnyDataset) : ModelTokenizer.t :=
  match ds with
  | OfInstructDataset d => InstructDataset._tokenizer d
  | OfISSAIInstructDataset d => ISSAIInstructDataset._tokenizer d
  end.

Definition template_of (ds : AnyDataset) : TemplateClass :=
  match ds with
  | OfInstructDataset d => InstructDataset.template d
  | OfISSAIInstructDataset d => ISSAIInstructDataset.template d
  end.

Definition transform_of (ds : AnyDataset) : option (Sample → Res Sample) :=
  match ds with
  | OfInstructDataset d => InstructDataset._transform d
  | OfISSAIInstructDataset d => ISSAIInstructDataset._transform d
  end.

Definition column_map_of (ds : AnyDataset) : option ColumnMap :=
  match ds with
  | OfInstructDataset d => InstructDataset._column_map d
  | OfISSAIInstructDataset d => ISSAIInstructDataset._column_map d
  end.

Definition train_on_input_of (ds : AnyDataset) : bool :=
  match ds with
  | OfInstructDataset d => InstructDataset.train_on_input d
  | OfISSAIInstructDataset d => ISSAIInstructDataset.train_on_input d
  end.

(** [ds._prepare_sample(sample)], resolved on the class of [ds]. *)
Definition prepare_sample (ds : AnyDataset) (sample : Sample)
    : M (gmap string (list Z)) :=
  match ds with
  | OfInstructDataset d => InstructDataset._prepare_sample d sample
  | OfISSAIInstructDataset d => ISSAIInstructDataset._prepare_sample d sample
  end.

(** The sample that is formatted: [self._transform(sample)] when a
    transform is set, the sample itself otherwise. *)
Definition transformed (ds : AnyDataset) (sample : Sample) : Res Sample :=
  match transform_of ds with
  | Some transform => transform sample
  | None => Ok sample
  end.

(** The same configuration in both classes. *)
Definition same_configuration (a : InstructDataset.t) (b : ISSAIInstructDataset.t) : Prop :=
  InstructDataset._tokenizer a = ISSAIInstructDataset._tokenizer b ∧
  InstructDataset.template a = ISSAIInstructDataset.template b ∧
  InstructDataset._transform a = ISSAIInstructDataset._transform b ∧
  InstructDataset._column_map a = ISSAIInstructDataset._column_map b ∧
  InstructDataset.train_on_input a = ISSAIInstructDataset.train_on_input b.

End Dispatch.

(** ** The spec's notions *)

(** The resolved key of a canonical name, in the spec's words: the entry of
    the column map when the map is given and has one, the canonical name
    otherwise. *)
Definition resolved_key (column_map : option ColumnMap) (name : string) : string :=
  match column_map with
  | Some d => default name (d !! name)
  | None => name
  end.

(** The text before the instruction in the layout [prompt_issai], and the
    text after the input. *)
Definition issai_header : string :=
  "Below is an instruction that describes a task. "
  +:+ "Write a response that appropriately completes the request." +:+ newline +:+ newline
  +:+ "### Instruction:" +:+ newline.

Definition issai_footer : string :=
  newline +:+ newline +:+ "### Response:" +:+ newline.

(** The layout [prompt_issai] filled in, and the instruction-only layout
    [prompt_no_input] filled in. *)
Definition combined_layout (instruction input : pyval) : string :=
  issai_header +:+ py_str instruction +:+ newline +:+ py_str input +:+ issai_footer.

Definition instruction_only_layout (instruction : pyval) : string :=
  issai_header +:+ py_str instruction +:+ issai_footer.

(** The layout [llama_orig] filled in. *)
Definition llama_layout (instruction input : pyval) : string :=
  "<|start_header_id|>system<|end_header_id|>" +:+ newline +:+ newline
  +:+ "Cutting Knowledge Date: December 2023" +:+ newline
  +:+ "Today Date: 23 July 2024" +:+ newline +:+ newline
  +:+ "You are a helpful assistant"
  +:+ "<|start_header_id|>user<|end_header_id|>" +:+ newline +:+ newline
  +:+ py_str instruction +:+ newline +:+ py_str input +:+ newline
  +:+ "<|start_header_id|>assistant<|end_header_id|>".

(** ** A concrete environment to run the model in *)

(** A stand-in for [numpy] on ids beyond [int64]: an array of unsigned
    64-bit integers, in which a negative scalar wraps around. *)
Definition wrap_uint64 (y : list Z) (x : Z) (c : bool) (t : Z) : Z :=
  if c then (if x <? 0 then x + 18446744073709551616 else x) else t.

(** A validator that accepts everything, a loader that finds no records,
    and a tokenizer state that counts the calls. *)
Definition demo_collaborators : Collaborators := {|
  tok_state := nat;
  validate_messages := λ _, Ok ();
  load_dataset := λ _ _, Ok [];
  np_where_wide := wrap_uint64;
|}.

(** A tokenizer that answers every call with the same token ids and mask. *)
Definition fixed_tokenizer (tokens : list Z) (mask : list bool)
    (max_seq_len : option Z) : @ModelTokenizer.t demo_collaborators :=
  @ModelTokenizer.mk demo_collaborators
    (λ _ (n : nat), (Ok (tokens, mask), S n)) max_seq_len 0.

Definition demo_world : @World demo_collaborators :=
  @mkWorld demo_collaborators 0%nat [].

Definition demo_sample : Sample :=
  {[ "instruction" := VStr "Summarize"; "input" := VStr "Long text";
     "output" := VStr "Short summary" ]}.

Definition demo_issai (tokens : list Z) (mask : list bool)
    (template : @TemplateClass demo_collaborators)
    : @ISSAIInstructDataset.t demo_collaborators :=
  @ISSAIInstructDataset.mk demo_collaborators
    (fixed_tokenizer tokens mask None) [demo_sample] template None None false None.

Definition demo_instruct (tokens : list Z) (mask : list bool)
    : @InstructDataset.t demo_collaborators :=
  @InstructDataset.mk demo_collaborators
    (fixed_tokenizer tokens mask None) [demo_sample] AlpacaInstructTemplate
    None None false None.

(** A sample whose input is the empty string, and one without input. *)
Definition poem_sample : Sample :=
  {[ "instruction" := VStr "Write a poem"; "input" := VStr "";
     "output" := VStr "Roses are red" ]}.

Definition no_input_sample : Sample :=
  {[ "instruction" := VStr "Write a poem"; "output" := VStr "Roses are red" ]}.

Definition no_output_sample : Sample :=
  {[ "instruction" := VStr "Summarize"; "input" := VStr "Long text" ]}.

(** The messages built from [demo_sample] with the Alpaca template and
    [train_on_input] off. *)
Definition demo_messages : list Message :=
  [ mkMessage "user"
      (VStr (combined_layout (VStr "Summarize") (VStr "Long text"))) true;
    mkMessage "assistant" (VStr "Short summary") false ].

(** Stand-ins for the imported builders' collaborators: a component lookup
    that knows the two templates, a message transform that accepts its
    arguments, and wrapper classes that only record what they were given. *)
Definition demo_get_component (path : string) : Res (@TemplateClass demo_collaborators) :=
  if String.eqb path "torchtune.data.AlpacaInstructTemplate" then Ok AlpacaInstructTemplate
  else if String.eqb path "torchtune.data.LlamaInstructTemplate" then Ok LlamaInstructTemplate
  else Err (OtherError "ModuleNotFoundError").

Definition demo_InputOutputToMessages (train_on_input : bool)
    (column_map : option ColumnMap) (new_system_prompt : option string) : Res unit :=
  Ok ().

Definition demo_wrapper : Type :=
  @AnyDataset demo_collaborators * option Z * option Z.

Definition demo_wrap (ds : @AnyDataset demo_collaborators)
    (max_seq_len padding_idx : option Z) : @M demo_collaborators demo_wrapper :=
  mret (ds, max_seq_len, padding_idx).

(** ** Item access behind one interface *)

Section DispatchItems.
Context `{Collaborators}.

Definition data_of (ds : AnyDataset) : list Sample :=
  match ds with
  | OfInstructDataset d => InstructDataset._data d
  | OfISSAIInstructDataset d => ISSAIInstructDataset._data d
  end.

(** [ds[index]], resolved on the class of [ds]. *)
Definition getitem (ds : AnyDataset) (index : Z) : M (gmap string (list Z)) :=
  match ds with
  | OfInstructDataset d => InstructDataset.__getitem__ d index
  | OfISSAIInstructDataset d => ISSAIInstructDataset.__getitem__ d index
  end.

End DispatchItems.

(** ** Further environments to run the model in *)

(** A validator that refuses every message list, and a loader that knows
    only the source "json". *)
Definition strict_collaborators : Collaborators := {|
  tok_state := nat;
  validate_messages := λ _, Err (ValueError "invalid messages");
  load_dataset := λ source _,
    if String.eqb source "json" then Ok [] else Err (OtherError "FileNotFoundError");
  np_where_wide := wrap_uint64;
|}.

Definition strict_world : @World strict_collaborators :=
  @mkWorld strict_collaborators 0%nat [].

Definition strict_issai : @ISSAIInstructDataset.t strict_collaborators :=
  @ISSAIInstructDataset.mk strict_collaborators
    (@ModelTokenizer.mk strict_collaborators
       (λ _ (n : nat), (Ok ([1; 2; 3], [true; false; false]), S n)) None 0)
    [] AlpacaInstructTemplate None None false None.

(** A tokenizer that raises on every call. *)
Definition failing_tokenizer : @ModelTokenizer.t demo_collaborators :=
  @ModelTokenizer.mk demo_collaborators
    (λ _ (n : nat), (Err (OtherError "TokenizerError"), S n)) None 0.

Definition failing_issai : @ISSAIInstructDataset.t demo_collaborators :=
  @ISSAIInstructDataset.mk demo_collaborators
    failing_tokenizer [demo_sample] AlpacaInstructTemplate None None false None.

(** A dataset whose [max_seq_len] is smaller than what its tokenizer
    answers, and one with three records. *)
Definition short_issai : @ISSAIInstructDataset.t demo_collaborators :=
  @ISSAIInstructDataset.mk demo_collaborators
    (fixed_tokenizer [1; 2; 3] [true; false; false] (Some 2))
    [demo_sample] AlpacaInstructTemplate None None false (Some 2).

Definition three_records : @InstructDataset.t demo_collaborators :=
  @InstructDataset.mk demo_collaborators
    (fixed_tokenizer [1; 2; 3] [true; false; false] None)
    [no_output_sample; poem_sample; demo_sample] AlpacaInstructTemplate
    None None false None.

(** A sample with the same three fields as [demo_sample] and one more, and
    a sample whose fields go by other names. *)
Definition demo_sample_with_id : Sample :=
  <[ "id" := VStr "42" ]> demo_sample.

Definition renamed_sample : Sample :=
  {[ "prompt" := VStr "Summarize"; "input" := VStr "Long text";
     "response" := VStr "Short summary"; "instruction" := VStr "ignored" ]}.

Definition renaming : ColumnMap :=
  {[ "instruction" := "prompt"; "output" := "response" ]}.

(** * Properties *)

(** ** The format-string scanner on examples *)

Example py_format_ex :
  py_format "a{x}-{y}{{}}" [("x", VStr "1"); ("y", VNone)] = Ok "a1-None{}".
Proof. reflexivity. Qed.

Example py_format_missing :
  py_format "a{x}-{y}" [("x", VStr "1")] = Err (KeyError "y").
Proof. reflexivity. Qed.

Example py_format_positional :
  py_format "{}" [("x", VStr "1")] = Err IndexError.
Proof. reflexivity. Qed.

(** ** Column-map resolution *)

Lemma dict_get_or_empty (cm : option ColumnMap) (name : string) :
  dict_get (or_empty cm) name name = resolved_key cm name.
Proof.
  destruct cm as [d|]; simpl; [|reflexivity].
  unfold dict_get. case_bool_decide as Hd; simpl.
  - subst d. rewrite !lookup_empty. reflexivity.
  - destruct (d !! name); reflexivity.
Qed.

Lemma resolved_key_None name : resolved_key None name = name.
Proof. reflexivity. Qed.

(** ** The templates *)

Section Templates.
Context `{Collaborators}.

Lemma issai_layout_filled (instruction input : pyval) :
  py_format
    (issai_header +:+ "{instruction}" +:+ newline +:+ "{input}" +:+ issai_footer)
    [("instruction", instruction); ("input", input)]
  = Ok (combined_layout instruction input).
Proof. vm_compute. reflexivity. Qed.

(** The instruction-only layout is the entry [prompt_no_input] filled in;
    [format] never reads that entry. *)
Lemma no_input_layout_filled (instruction : pyval) :
  (fmt ← attr_subscript (cls_template AlpacaInstructTemplate) "prompt_no_input";
   py_format fmt [("instruction", instruction)])
  = Ok (instruction_only_layout instruction).
Proof. vm_compute. reflexivity. Qed.

Lemma alpaca_prompt_issai :
  attr_subscript (cls_template AlpacaInstructTemplate) "prompt_issai"
  = Ok (issai_header +:+ "{instruction}" +:+ newline +:+ "{input}" +:+ issai_footer).
Proof. vm_compute. reflexivity. Qed.

Lemma llama_orig_filled :
  ∃ fmt, attr_subscript (cls_template LlamaInstructTemplate) "llama_orig" = Ok fmt ∧
         ∀ instruction input : pyval,
           py_format fmt [("instruction", instruction); ("input", input)]
           = Ok (llama_layout instruction input).
Proof.
  eexists. split; [vm_compute; reflexivity|].
  intros instruction input. vm_compute. reflexivity.
Qed.

(** What a call of [AlpacaInstructTemplate.format] does, case by case. *)
Lemma alpaca_format_cases (sample : Sample) (cm : option ColumnMap) (w : World) :
  format AlpacaInstructTemplate sample cm w =
  (match sample !! resolved_key cm "instruction" with
   | None => Err (KeyError (resolved_key cm "instruction"))
   | Some instruction =>
       match sample !! resolved_key cm "input" with
       | None => Err (KeyError (resolved_key cm "input"))
       | Some input => Ok (VStr (combined_layout instruction input))
       end
   end, w).
Proof.
  unfold format. change (cls_format AlpacaInstructTemplate) with AlpacaInstructTemplate_format.
  unfold AlpacaInstructTemplate_format. rewrite !dict_get_or_empty.
  rewrite alpaca_prompt_issai.
  unfold mbind, M_bind, mret, M_ret, lift, subscript.
  destruct (sample !! resolved_key cm "instruction") as [i|]; [|reflexivity].
  destruct (sample !! resolved_key cm "input") as [x|]; [|reflexivity].
  rewrite issai_layout_filled. reflexivity.
Qed.

(** What a call of [LlamaInstructTemplate.format] does, case by case. *)
Lemma llama_format_cases (sample : Sample) (cm : option ColumnMap) (w : World) :
  format LlamaInstructTemplate sample cm w =
  (match sample !! resolved_key cm "instruction" with
   | None => Err (KeyError (resolved_key cm "instruction"))
   | Some instruction =>
       match sample !! resolved_key cm "input" with
       | None => Err (KeyError (resolved_key cm "input"))
       | Some input => Ok (VStr (llama_layout instruction input))
       end
   end, w).
Proof.
  unfold format. change (cls_format LlamaInstructTemplate) with LlamaInstructTemplate_format.
  unfold LlamaInstructTemplate_format. rewrite !dict_get_or_empty.
  destruct llama_orig_filled as (fmt & -> & Hfill).
  unfold mbind, M_bind, mret, M_ret, lift, subscript.
  destruct (sample !! resolved_key cm "instruction") as [i|]; [|reflexivity].
  destruct (sample !! resolved_key cm "input") as [x|]; [|reflexivity].
  rewrite Hfill. reflexivity.
Qed.

Lemma string_length_app (a b : string) :
  String.length (a +:+ b) = (String.length a + String.length b)%nat.
Proof. induction a as [|c a IH]; simpl; [reflexivity | by rewrite IH]. Qed.

Lemma combined_not_instruction_only (instruction input : pyval) :
  combined_layout instruction input ≠ instruction_only_layout instruction.
Proof.
  unfold combined_layout, instruction_only_layout. intros E.
  apply String.app_inj in E. apply String.app_inj in E.
  apply (f_equal String.length) in E.
  rewrite !string_length_app in E. simpl in E. lia.
Qed.

(** C3: on a sample that has both the resolved instruction field and the
    resolved input field, [AlpacaInstructTemplate.format] returns the
    combined layout with the input value in it, whatever that value is (the
    empty string included), and this is never the instruction-only
    layout. *)
Theorem alpaca_format_includes_input (sample : Sample) (cm : option ColumnMap)
    (instruction input : pyval) (w : World) :
  sample !! resolved_key cm "instruction" = Some instruction →
  sample !! resolved_key cm "input" = Some input →
  format AlpacaInstructTemplate sample cm w
    = (Ok (VStr (combined_layout instruction input)), w)
  ∧ combined_layout instruction input ≠ instruction_only_layout instruction.
Proof.
  intros Hi Hx. split; [|apply combined_not_instruction_only].
  rewrite alpaca_format_cases, Hi, Hx. reflexivity.
Qed.

(** C6: when the resolved instruction key or the resolved input key is
    absent from the sample, the format method of either template raises
    [KeyError] (the spec's MissingFieldError), naming the instruction key
    if that one is absent and the input key otherwise, and leaves the world
    as it was. *)
Theorem format_missing_field (t : TemplateClass) (sample : Sample)
    (cm : option ColumnMap) (w : World) :
  t = AlpacaInstructTemplate ∨ t = LlamaInstructTemplate →
  sample !! resolved_key cm "instruction" = None
    ∨ sample !! resolved_key cm "input" = None →
  format t sample cm w =
    (Err (KeyError (match sample !! resolved_key cm "instruction" with
                    | Some _ => resolved_key cm "input"
                    | None => resolved_key cm "instruction"
                    end)), w).
Proof.
  intros [-> | ->] Hmiss.
  - rewrite alpaca_format_cases.
    destruct (sample !! resolved_key cm "instruction"); [|reflexivity].
    destruct Hmiss as [? | ->]; [discriminate | reflexivity].
  - rewrite llama_format_cases.
    destruct (sample !! resolved_key cm "instruction"); [|reflexivity].
    destruct Hmiss as [? | ->]; [discriminate | reflexivity].
Qed.

(** In this model [AlpacaInstructTemplate.format] touches neither the
    tokenizer's state nor the call log: the call leaves the world unchanged
    and returns the same result whatever the world it starts in. *)
Remark alpaca_format_leaves_world (sample : Sample) (cm : option ColumnMap)
    (w1 w2 : World) :
  (format AlpacaInstructTemplate sample cm w1).2 = w1
  ∧ (format AlpacaInstructTemplate sample cm w1).1
    = (format AlpacaInstructTemplate sample cm w2).1
  ∧ format AlpacaInstructTemplate sample cm
      (format AlpacaInstructTemplate sample cm w1).2
    = format AlpacaInstructTemplate sample cm w1.
Proof.
  rewrite !alpaca_format_cases. simpl.
  rewrite ?alpaca_format_cases. done.
Qed.

End Templates.

Lemma alpaca_format_includes_input_witness :
  @format demo_collaborators AlpacaInstructTemplate poem_sample None demo_world
    = (Ok (VStr (combined_layout (VStr "Write a poem") (VStr ""))), demo_world)
  ∧ combined_layout (VStr "Write a poem") (VStr "")
    ≠ instruction_only_layout (VStr "Write a poem").
Proof.
  apply (@alpaca_format_includes_input demo_collaborators poem_sample None
           (VStr "Write a poem") (VStr "") demo_world); reflexivity.
Defined.

Lemma format_missing_field_witness :
  @format demo_collaborators LlamaInstructTemplate no_input_sample None demo_world
    = (Err (KeyError "input"), demo_world).
Proof.
  apply (@format_missing_field demo_collaborators LlamaInstructTemplate
           no_input_sample None demo_world).
  - right. reflexivity.
  - right. reflexivity.
Defined.

Section Preparation.
Context `{Collaborators}.

Lemma bind_run {A B} (m : M A) (f : A → M B) (w : World) :
  (m ≫= f) w =
  match m w with
  | (Ok a, w') => f a w'
  | (Err e, w') => (Err e, w')
  end.
Proof. reflexivity. Qed.

Lemma key_output_resolved (cm : option ColumnMap) (w : World) :
  match cm with
  | Some column_map =>
      if truthy cm && bool_decide (is_Some (column_map !! "output"))
      then lift (subscript column_map "output")
      else mret "output"
  | None => mret "output"
  end w = (Ok (resolved_key cm "output"), w).
Proof.
  destruct cm as [d|]; [|reflexivity]. unfold resolved_key, lift, subscript, truthy.
  destruct (d !! "output") as [k|] eqn:Hk.
  - assert (d ≠ ∅) by (intros ->; by rewrite lookup_empty in Hk).
    rewrite (bool_decide_eq_false_2 (d = ∅)) by done.
    rewrite (bool_decide_eq_true_2 (is_Some (Some k))) by eauto. reflexivity.
  - rewrite (bool_decide_eq_false_2 (is_Some None)) by (by intros [? ?]).
    rewrite andb_false_r. reflexivity.
Qed.

Lemma prepare_sample_run (ds : AnyDataset) (sample : Sample) (w : World) :
  prepare_sample ds sample w =
  match transformed ds sample with
  | Err e => (Err e, w)
  | Ok ts =>
      match format (template_of ds) ts (column_map_of ds) w with
      | (Err e, w1) => (Err e, w1)
      | (Ok prompt, w1) =>
          let key_output := resolved_key (column_map_of ds) "output" in
          match ts !! key_output with
          | None => (Err (KeyError key_output), w1)
          | Some output =>
              let messages :=
                [mkMessage "user" prompt (negb (train_on_input_of ds));
                 mkMessage "assistant" output false] in
              match validate_messages messages with
              | Err e => (Err e, mkWorld (tok w1) (calls w1 ++ [CallValidate messages]))
              | Ok _ =>
                  let answer :=
                    ModelTokenizer.tokenize_messages (tokenizer_of ds) messages (tok w1) in
                  let w3 := mkWorld answer.2
                              ((calls w1 ++ [CallValidate messages])
                                 ++ [CallTokenize messages answer.1]) in
                  match answer.1 with
                  | Err e => (Err e, w3)
                  | Ok (tokens, mask) =>
                      match np_where mask CROSS_ENTROPY_IGNORE_IDX tokens with
                      | Err e => (Err e, w3)
                      | Ok labels =>
                          if (length tokens =? length labels)%nat
                          then (Ok {[ "tokens" := tokens; "labels" := labels ]}, w3)
                          else (Err AssertionError, w3)
                      end
                  end
              end
          end
      end
  end.
Proof.
  destruct ds as [[tk data t tr cm toi msl] | [tk data t tr cm toi msl]];
    unfold prepare_sample, transformed, transform_of, template_of, column_map_of,
      train_on_input_of, tokenizer_of,
      InstructDataset._prepare_sample, ISSAIInstructDataset._prepare_sample;
    cbn [InstructDataset._transform InstructDataset.template
         InstructDataset._column_map InstructDataset.train_on_input
         InstructDataset._tokenizer
         ISSAIInstructDataset._transform ISSAIInstructDataset.template
         ISSAIInstructDataset._column_map ISSAIInstructDataset.train_on_input
         ISSAIInstructDataset._tokenizer].
  all: destruct tr as [transform|]; rewrite bind_run; unfold lift at 1, mret at 1, M_ret at 1.
  all: try destruct (transform sample) as [ts|e]; try reflexivity.
  all: rewrite bind_run; destruct (format t _ cm w) as [[prompt|e] w1]; try reflexivity.
  all: rewrite bind_run, key_output_resolved, bind_run; unfold lift at 1, subscript.
  all: match goal with |- context [?ts !! resolved_key ?c "output"] =>
         destruct (ts !! resolved_key c "output") as [output|]; try reflexivity end.
  all: rewrite bind_run; unfold call_validate_messages at 1, Message_default_masked;
       destruct (validate_messages _) as [[]|e]; try reflexivity.
  all: rewrite bind_run; unfold ModelTokenizer.call_tokenize_messages at 1; cbn [tok calls];
       destruct (ModelTokenizer.tokenize_messages tk _ (tok w1)) as [[[tokens mask]|e] s];
       cbn [fst snd]; try reflexivity.
  all: rewrite bind_run; unfold lift;
       destruct (np_where mask _ tokens) as [labels|e]; try reflexivity.
  all: rewrite bind_run; unfold py_assert;
       destruct (length tokens =? length labels)%nat; reflexivity.
Qed.

(** ** Label derivation *)

Lemma np_where_same_length (mask : list bool) (x : Z) (tokens : list Z) :
  length mask = length tokens →
  all_fit_int64 tokens = true →
  np_where mask x tokens = Ok (zip_with (λ (c : bool) (t : Z), if c then x else t) mask tokens).
Proof.
  intros E Hfit. unfold np_where. rewrite E, Nat.eqb_refl, Hfit. reflexivity.
Qed.

Lemma np_where_length (mask : list bool) (x : Z) (tokens labels : list Z) :
  np_where mask x tokens = Ok labels →
  length tokens = length labels →
  length mask = length tokens ∨ length mask = 1%nat.
Proof.
  unfold np_where. destruct (Nat.eqb_spec (length mask) (length tokens)) as [E|N].
  { by left. }
  intros Hw Hl. right.
  destruct mask as [|c [|c' mask]]; [| reflexivity |].
  - destruct tokens as [|t [|t' tokens]]; simplify_eq/=.
  - destruct tokens as [|t [|t' tokens]]; simplify_eq/=.
Qed.

Lemma derived_labels (mask : list bool) (x : Z) (tokens : list Z) (i : nat) :
  length tokens = length mask →
  x ∉ tokens →
  let labels := zip_with (λ (c : bool) (t : Z), if c then x else t) mask tokens in
  (labels !! i = Some x ↔ mask !! i = Some true)
  ∧ (mask !! i = Some false → labels !! i = tokens !! i).
Proof.
  intros Hlen Hx labels. subst labels. rewrite lookup_zip_with.
  destruct (mask !! i) as [c|] eqn:Hc; simpl.
  - destruct (tokens !! i) as [t|] eqn:Ht; simpl.
    + destruct c; (split; [split|]); try done.
      intros [= ->]. exfalso. apply Hx. by eapply list_elem_of_lookup_2.
    + apply lookup_lt_Some in Hc. apply lookup_ge_None in Ht. lia.
  - split; [split|]; done.
Qed.

(** A run that returns a result ended with the tokenizer call whose answer
    the result was derived from. *)
Lemma prepare_sample_Ok (ds : AnyDataset) (sample : Sample) (w w' : World)
    (out : gmap string (list Z)) :
  prepare_sample ds sample w = (Ok out, w') →
  ∃ messages tokens mask labels,
    last (calls w') = Some (CallTokenize messages (Ok (tokens, mask)))
    ∧ np_where mask CROSS_ENTROPY_IGNORE_IDX tokens = Ok labels
    ∧ length tokens = length labels
    ∧ out = {[ "tokens" := tokens; "labels" := labels ]}.
Proof.
  rewrite prepare_sample_run.
  destruct (transformed ds sample) as [ts|e]; [|done].
  destruct (format _ ts _ w) as [[prompt|e] w1]; [|done].
  cbv zeta. destruct (ts !! _) as [output|]; [|done].
  destruct (validate_messages _) as [[]|e]; [|done].
  destruct (ModelTokenizer.tokenize_messages _ _ _) as [[[tokens mask]|e] s];
    cbn [fst snd]; [|done].
  destruct (np_where mask _ tokens) as [labels|e] eqn:Hw; [|done].
  destruct (Nat.eqb_spec (length tokens) (length labels)) as [Hl|]; [|done].
  intros [= <- <-]. eexists _, tokens, mask, labels.
  cbn [calls]. rewrite last_snoc. done.
Qed.

(** X20: a run returns a result whenever every stage succeeds and the
    tokenizer answers with as many mask entries as tokens, all of them ids
    that fit [int64]. *)
Lemma prepare_sample_succeeds (ds : AnyDataset) (sample ts : Sample)
    (w w1 : World) (prompt output : pyval) (tokens : list Z) (mask : list bool)
    (s : tok_state) :
  let messages := [mkMessage "user" prompt (negb (train_on_input_of ds));
                   mkMessage "assistant" output false] in
  transformed ds sample = Ok ts →
  format (template_of ds) ts (column_map_of ds) w = (Ok prompt, w1) →
  ts !! resolved_key (column_map_of ds) "output" = Some output →
  validate_messages messages = Ok () →
  ModelTokenizer.tokenize_messages (tokenizer_of ds) messages (tok w1)
    = (Ok (tokens, mask), s) →
  length mask = length tokens →
  all_fit_int64 tokens = true →
  ∃ w', prepare_sample ds sample w
        = (Ok {[ "tokens" := tokens;
                 "labels" := zip_with (λ (c : bool) (t : Z),
                                         if c then CROSS_ENTROPY_IGNORE_IDX else t)
                               mask tokens ]}, w').
Proof.
  intros messages Ht Hf Ho Hv Hk Hl Hfit. rewrite prepare_sample_run, Ht, Hf.
  cbv zeta. rewrite Ho. fold messages. rewrite Hv, Hk. cbn [fst snd].
  rewrite np_where_same_length by done.
  rewrite length_zip_with, Hl, Nat.min_id, Nat.eqb_refl. eauto.
Qed.

(** C1: when every stage up to the tokenizer succeeds and the tokenizer
    answers with tokens and mask of equal lengths, the ids fitting [int64]
    and the sentinel not among them, preparation returns a result that holds
    these tokens and a labels list of the same length, with labels[i] the
    sentinel exactly where mask[i] is true, and labels[i] = tokens[i] where
    mask[i] is false. *)
Theorem labels_follow_mask (ds : AnyDataset) (sample ts : Sample)
    (w w1 : World) (prompt output : pyval) (tokens : list Z) (mask : list bool)
    (s : tok_state) :
  let messages := [mkMessage "user" prompt (negb (train_on_input_of ds));
                   mkMessage "assistant" output false] in
  transformed ds sample = Ok ts →
  format (template_of ds) ts (column_map_of ds) w = (Ok prompt, w1) →
  ts !! resolved_key (column_map_of ds) "output" = Some output →
  validate_messages messages = Ok () →
  ModelTokenizer.tokenize_messages (tokenizer_of ds) messages (tok w1)
    = (Ok (tokens, mask), s) →
  length tokens = length mask →
  all_fit_int64 tokens = true →
  CROSS_ENTROPY_IGNORE_IDX ∉ tokens →
  ∃ (out : gmap string (list Z)) (labels : list Z),
    (prepare_sample ds sample w).1 = Ok out
    ∧ out !! "tokens" = Some tokens
    ∧ out !! "labels" = Some labels
    ∧ length labels = length tokens
    ∧ ∀ i : nat,
        (labels !! i = Some CROSS_ENTROPY_IGNORE_IDX ↔ mask !! i = Some true)
        ∧ (mask !! i = Some false → labels !! i = tokens !! i).
Proof.
  intros messages Ht Hf Ho Hv Hk Hlen Hfit Hx.
  rewrite prepare_sample_run, Ht, Hf.
  cbv zeta. rewrite Ho. fold messages. rewrite Hv, Hk. cbn [fst snd].
  rewrite np_where_same_length by done.
  rewrite length_zip_with, <- Hlen, Nat.min_id, Nat.eqb_refl. cbn [fst].
  eexists _, _. split; [reflexivity|]. split; [done|]. split; [done|].
  split; [by rewrite length_zip_with, <- Hlen, Nat.min_id|].
  intros i. by apply derived_labels.
Qed.

(** C2: once the sample is transformed, the prompt formatted and the
    resolved output field found, preparation builds the user message
    (content the prompt, masked = not train_on_input) followed by the
    assistant message (content the output field, not masked): this
    two-element list is what it hands to the validator next and, if the
    validator accepts it, to the tokenizer, and nothing else is handed
    over. *)
Theorem two_messages_in_order (ds : AnyDataset) (sample ts : Sample)
    (w w1 : World) (prompt output : pyval) :
  transformed ds sample = Ok ts →
  format (template_of ds) ts (column_map_of ds) w = (Ok prompt, w1) →
  ts !! resolved_key (column_map_of ds) "output" = Some output →
  let messages := [mkMessage "user" prompt (negb (train_on_input_of ds));
                   mkMessage "assistant" output false] in
  ∃ rest : list Call,
    calls (prepare_sample ds sample w).2
      = calls w1 ++ CallValidate messages :: rest
    ∧ (rest = [] ∧ is_Ok (validate_messages messages) = false
       ∨ ∃ answer, rest = [CallTokenize messages answer]
                   ∧ is_Ok (validate_messages messages) = true).
Proof.
  intros Ht Hf Ho messages. rewrite prepare_sample_run, Ht, Hf.
  cbv zeta. rewrite Ho. fold messages.
  destruct (validate_messages messages) as [[]|e].
  - destruct (ModelTokenizer.tokenize_messages _ _ _) as [answer s].
    exists [CallTokenize messages answer]. split; [|right; eauto].
    cbn [fst snd]. rewrite <- app_assoc.
    destruct answer as [[tokens mask]|e]; [|reflexivity].
    destruct (np_where _ _ _); [destruct (_ =? _)%nat|]; reflexivity.
  - exists []. split; [done | by left].
Qed.

(** X21: which exception a mismatch raises once the tokenizer has
    answered: the broadcast fails, or, when there is a single token, the
    assertion does. *)
Lemma mismatch_error_kind (ds : AnyDataset) (sample ts : Sample)
    (w w1 : World) (prompt output : pyval) (tokens : list Z) (mask : list bool)
    (s : tok_state) :
  let messages := [mkMessage "user" prompt (negb (train_on_input_of ds));
                   mkMessage "assistant" output false] in
  transformed ds sample = Ok ts →
  format (template_of ds) ts (column_map_of ds) w = (Ok prompt, w1) →
  ts !! resolved_key (column_map_of ds) "output" = Some output →
  validate_messages messages = Ok () →
  ModelTokenizer.tokenize_messages (tokenizer_of ds) messages (tok w1)
    = (Ok (tokens, mask), s) →
  length mask ≠ length tokens →
  length mask ≠ 1%nat →
  (prepare_sample ds sample w).1
  = Err (if (length tokens =? 1)%nat then AssertionError
         else ValueError "operands could not be broadcast together").
Proof.
  intros messages Ht Hf Ho Hv Hk Hne H1. rewrite prepare_sample_run, Ht, Hf.
  cbv zeta. rewrite Ho. fold messages. rewrite Hv, Hk. cbn [fst snd].
  unfold np_where. destruct (Nat.eqb_spec (length mask) (length tokens)); [done|].
  destruct mask as [|c [|c' mask]]; [| done |];
    destruct tokens as [|t [|t' tokens]]; done.
Qed.

(** What the assertion does guard: a returned result always has as many
    labels as tokens, and when the tokenizer answered with a mask whose
    length is neither that of the tokens nor one, preparation raises and
    returns no result. *)
Theorem mismatched_lengths_raise (ds : AnyDataset) (sample : Sample)
    (w w' : World) (r : Res (gmap string (list Z))) :
  prepare_sample ds sample w = (r, w') →
  (∀ out, r = Ok out →
     ∃ tokens labels : list Z,
       out !! "tokens" = Some tokens ∧ out !! "labels" = Some labels
       ∧ length tokens = length labels)
  ∧ (∀ messages tokens mask,
       last (calls w') = Some (CallTokenize messages (Ok (tokens, mask))) →
       length tokens ≠ length mask →
       length mask ≠ 1%nat →
       is_Ok r = false).
Proof.
  intros Hrun. split.
  - intros out ->.
    destruct (prepare_sample_Ok _ _ _ _ _ Hrun)
      as (messages' & tokens' & mask' & labels & _ & _ & Hl & ->).
    by exists tokens', labels.
  - intros messages tokens mask Hlast Hne H1.
    destruct r as [out|e]; [|done]. exfalso.
    destruct (prepare_sample_Ok _ _ _ _ _ Hrun)
      as (messages' & tokens' & mask' & labels & Hlast' & Hw & Hl & ->).
    rewrite Hlast in Hlast'. injection Hlast' as _ <- <-.
    destruct (np_where_length _ _ _ _ Hw Hl); congruence.
Qed.

(** C5: with one of the two templates of the source, a (transformed)
    sample without the resolved output key makes preparation raise
    [KeyError] (the spec's MissingFieldError), for the first absent key
    among instruction, input and output, and the world is left as it was:
    neither the validator nor the tokenizer has been called. *)
Theorem missing_output_raises (ds : AnyDataset) (sample ts : Sample) (w : World) :
  template_of ds = AlpacaInstructTemplate
    ∨ template_of ds = LlamaInstructTemplate →
  transformed ds sample = Ok ts →
  ts !! resolved_key (column_map_of ds) "output" = None →
  prepare_sample ds sample w =
    (Err (KeyError
            (match ts !! resolved_key (column_map_of ds) "instruction",
                   ts !! resolved_key (column_map_of ds) "input" with
             | None, _ => resolved_key (column_map_of ds) "instruction"
             | Some _, None => resolved_key (column_map_of ds) "input"
             | Some _, Some _ => resolved_key (column_map_of ds) "output"
             end)), w).
Proof.
  intros Htemplate Ht Ho. rewrite prepare_sample_run, Ht.
  destruct Htemplate as [-> | ->];
    rewrite ?alpaca_format_cases, ?llama_format_cases;
    destruct (ts !! resolved_key _ "instruction"); try reflexivity;
    destruct (ts !! resolved_key _ "input"); try reflexivity;
    cbv zeta; rewrite Ho; reflexivity.
Qed.

(** C9: with the same tokenizer, template, transform, column map and
    train_on_input flag, the two classes prepare every sample alike: same
    result (or same exception) and same effect on the world. *)
Theorem prepare_sample_same (a : InstructDataset.t) (b : ISSAIInstructDataset.t)
    (sample : Sample) (w : World) :
  same_configuration a b →
  InstructDataset._prepare_sample a sample w
    = ISSAIInstructDataset._prepare_sample b sample w.
Proof.
  destruct a, b. unfold same_configuration. simpl.
  intros (-> & -> & -> & -> & ->). reflexivity.
Qed.

End Preparation.

Lemma labels_follow_mask_witness :
  let ds := @OfInstructDataset demo_collaborators
              (demo_instruct [1; 2; 3] [true; false; false]) in
  ∃ (out : gmap string (list Z)) (labels : list Z),
    (@prepare_sample demo_collaborators ds demo_sample demo_world).1 = Ok out
    ∧ out !! "tokens" = Some [1; 2; 3]
    ∧ out !! "labels" = Some labels
    ∧ length labels = length [1; 2; 3]
    ∧ ∀ i : nat,
        (labels !! i = Some CROSS_ENTROPY_IGNORE_IDX
           ↔ [true; false; false] !! i = Some true)
        ∧ ([true; false; false] !! i = Some false
           → labels !! i = [1; 2; 3] !! i).
Proof.
  intros ds.
  apply (@labels_follow_mask demo_collaborators ds demo_sample demo_sample
           demo_world demo_world
           (VStr (combined_layout (VStr "Summarize") (VStr "Long text")))
           (VStr "Short summary") [1; 2; 3] [true; false; false] 1%nat).
  - reflexivity.
  - vm_compute. reflexivity.
  - reflexivity.
  - reflexivity.
  - reflexivity.
  - reflexivity.
  - reflexivity.
  - intros Hin. apply list_elem_of_In in Hin. simpl in Hin.
    unfold CROSS_ENTROPY_IGNORE_IDX in Hin. lia.
Defined.

Lemma two_messages_in_order_witness :
  let ds := @OfInstructDataset demo_collaborators
              (demo_instruct [1; 2; 3] [true; false; false]) in
  ∃ rest : list Call,
    calls (@prepare_sample demo_collaborators ds demo_sample demo_world).2
      = calls demo_world ++ CallValidate demo_messages :: rest
    ∧ (rest = [] ∧ is_Ok (@validate_messages demo_collaborators demo_messages) = false
       ∨ ∃ answer, rest = [CallTokenize demo_messages answer]
                   ∧ is_Ok (@validate_messages demo_collaborators demo_messages) = true).
Proof.
  intros ds.
  apply (@two_messages_in_order demo_collaborators ds demo_sample demo_sample
           demo_world demo_world
           (VStr (combined_layout (VStr "Summarize") (VStr "Long text")))
           (VStr "Short summary")).
  - reflexivity.
  - vm_compute. reflexivity.
  - reflexivity.
Defined.

(** C4: where the code lets a mismatch through.  A mask of length one
    against three tokens is broadcast by [np.where], the assertion on tokens
    and labels passes, and a result is returned although the tokenizer's
    answer has mismatched lengths. *)
Lemma mask_of_length_one_accepted :
  let ds := @OfISSAIInstructDataset demo_collaborators
              (demo_issai [1; 2; 3] [true] AlpacaInstructTemplate) in
  let run := @prepare_sample demo_collaborators ds demo_sample demo_world in
  run.1 = Ok {[ "tokens" := [1; 2; 3]; "labels" := [-100; -100; -100] ]}
  ∧ last (calls run.2) = Some (CallTokenize demo_messages (Ok ([1; 2; 3], [true])))
  ∧ length [1; 2; 3] ≠ length [true].
Proof.
  intros ds run. split; [|split].
  - vm_compute. reflexivity.
  - vm_compute. reflexivity.
  - simpl. lia.
Qed.

Lemma mismatched_lengths_raise_witness :
  let ds := @OfISSAIInstructDataset demo_collaborators
              (demo_issai [1; 2; 3] [true; false] AlpacaInstructTemplate) in
  is_Ok (@prepare_sample demo_collaborators ds demo_sample demo_world).1 = false.
Proof.
  intros ds.
  apply (proj2 (@mismatched_lengths_raise demo_collaborators ds demo_sample
                  demo_world
                  (@prepare_sample demo_collaborators ds demo_sample demo_world).2
                  (@prepare_sample demo_collaborators ds demo_sample demo_world).1
                  ltac:(vm_compute; reflexivity))
           demo_messages [1; 2; 3] [true; false]).
  - vm_compute. reflexivity.
  - simpl. lia.
  - simpl. lia.
Defined.

Example mismatched_lengths_raise_run :
  let ds := @OfISSAIInstructDataset demo_collaborators
              (demo_issai [1; 2; 3] [true; false] AlpacaInstructTemplate) in
  (@prepare_sample demo_collaborators ds demo_sample demo_world).1
    = Err (ValueError "operands could not be broadcast together")
  ∧ (@prepare_sample demo_collaborators
       (OfISSAIInstructDataset (demo_issai [7] [true; false] AlpacaInstructTemplate))
       demo_sample demo_world).1
    = Err AssertionError.
Proof. split; vm_compute; reflexivity. Qed.

Lemma missing_output_raises_witness :
  let ds := @OfISSAIInstructDataset demo_collaborators
              (demo_issai [1; 2; 3] [true; false; false] LlamaInstructTemplate) in
  @prepare_sample demo_collaborators ds no_output_sample demo_world
    = (Err (KeyError "output"), demo_world).
Proof.
  intros ds.
  apply (@missing_output_raises demo_collaborators ds no_output_sample
           no_output_sample demo_world).
  - right. reflexivity.
  - reflexivity.
  - reflexivity.
Defined.

Lemma prepare_sample_same_witness :
  @InstructDataset._prepare_sample demo_collaborators
     (demo_instruct [1; 2; 3] [true; false; false]) demo_sample demo_world
  = @ISSAIInstructDataset._prepare_sample demo_collaborators
      (demo_issai [1; 2; 3] [true; false; false] AlpacaInstructTemplate)
      demo_sample demo_world.
Proof.
  apply (@prepare_sample_same demo_collaborators).
  repeat split.
Defined.

(** ** Construction *)

Section Construction.
Context `{Collaborators}.

(** C10: for a template class that can be instantiated,
    [InstructDataset.__init__] raises [ValueError] when the instance is not
    an [AlpacaInstructTemplate], while [ISSAIInstructDataset.__init__]
    builds the dataset when the instance is an [InstructTemplate]. *)
Theorem template_checks_differ (template instance : TemplateClass)
    (data_files source : string) (tokenizer : ModelTokenizer.t)
    (data : list Sample) (transform : option (Sample → Res Sample))
    (column_map : option ColumnMap) (train_on_input : bool)
    (max_seq_len : option Z) :
  instantiate template = Ok instance →
  (isinstance instance AlpacaInstructTemplate_id = false →
   InstructDataset.__init__ data_files tokenizer source template transform
     column_map train_on_input max_seq_len
   = Err (ValueError "template must be an InstructTemplate class"))
  ∧ (isinstance instance InstructTemplate_id = true →
     ISSAIInstructDataset.__init__ tokenizer data template transform
       column_map train_on_input max_seq_len
     = Ok (ISSAIInstructDataset.mk tokenizer data template transform
             column_map train_on_input max_seq_len)).
Proof.
  intros Hinst. unfold InstructDataset.__init__, ISSAIInstructDataset.__init__.
  rewrite Hinst. simpl. split; intros ->; reflexivity.
Qed.

(** [LlamaInstructTemplate] is an [InstructTemplate] and not an
    [AlpacaInstructTemplate]. *)
Lemma llama_instance :
  instantiate LlamaInstructTemplate = Ok LlamaInstructTemplate
  ∧ isinstance LlamaInstructTemplate AlpacaInstructTemplate_id = false
  ∧ isinstance LlamaInstructTemplate InstructTemplate_id = true.
Proof. repeat split. Qed.

(** The abstract base class itself cannot be passed: instantiating it
    raises [TypeError] in both constructors. *)
Lemma abstract_template_rejected (data_files source : string)
    (tokenizer : ModelTokenizer.t) (data : list Sample) :
  InstructDataset.__init__ data_files tokenizer source InstructTemplate
    None None false None
  = Err (TypeError "Can't instantiate abstract class")
  ∧ ISSAIInstructDataset.__init__ tokenizer data InstructTemplate
      None None false None
    = Err (TypeError "Can't instantiate abstract class").
Proof. split; reflexivity. Qed.

Section WithBuilders.
Variable _get_component_from_path : string → Res TemplateClass.
Variable InputOutputToMessages : bool → option ColumnMap → option string → Res unit.
Variables PackedT NotPackedT : Type.
Variable PackedDataset : AnyDataset → option Z → option Z → M PackedT.
Variable NotPackedDataset : AnyDataset → option Z → option Z → M NotPackedT.

(** X16: [instruct_dataset] guards packing: once the dataset is built, a
    tokenizer without [max_seq_len] makes it raise [ValueError]. *)
Lemma instruct_dataset_guard (tokenizer : ModelTokenizer.t)
    (data_files source template : string) (column_map : option ColumnMap)
    (train_on_input : bool) (new_system_prompt : option string)
    (max_seq_len : option Z) (t : TemplateClass) (data : list Sample) (w : World) :
  ModelTokenizer.max_seq_len tokenizer = None →
  InputOutputToMessages train_on_input column_map new_system_prompt = Ok () →
  _get_component_from_path template = Ok t →
  instantiate t = Ok t →
  isinstance t AlpacaInstructTemplate_id = true →
  load_dataset source data_files = Ok data →
  instruct_dataset _get_component_from_path InputOutputToMessages
    PackedT NotPackedT PackedDataset NotPackedDataset
    tokenizer data_files source column_map train_on_input new_system_prompt
    true max_seq_len template w
  = (Err (ValueError "PackedDataset requires a max_seq_len to be set on the tokenizer."), w).
Proof.
  intros Hmax Hio Hget Hinst Hisa Hload. unfold instruct_dataset.
  rewrite Hio, Hget. unfold InstructDataset.__init__.
  cbv [mbind M_bind Res_bind lift raise].
  rewrite Hinst. cbv beta iota. rewrite Hisa. cbv [negb]. cbv beta iota.
  rewrite Hload. cbv beta iota. rewrite Hmax. reflexivity.
Qed.


End WithBuilders.
End Construction.

Lemma template_checks_differ_witness :
  @InstructDataset.__init__ demo_collaborators "train.json"
    (fixed_tokenizer [1] [true] None) "json" LlamaInstructTemplate
    None None false None
  = Err (ValueError "template must be an InstructTemplate class")
  ∧ @ISSAIInstructDataset.__init__ demo_collaborators
      (fixed_tokenizer [1] [true] None) [demo_sample] LlamaInstructTemplate
      None None false None
    = Ok (demo_issai [1] [true] LlamaInstructTemplate).
Proof.
  destruct (@template_checks_differ demo_collaborators
              LlamaInstructTemplate LlamaInstructTemplate "train.json" "json"
              (fixed_tokenizer [1] [true] None) [demo_sample] None None false None)
    as [Hinstruct Hissai]; [reflexivity|].
  split; [apply Hinstruct | apply Hissai]; reflexivity.
Defined.


(** The same request through [instruct_dataset] is refused. *)
Example instruct_dataset_guard_run :
  @instruct_dataset demo_collaborators demo_get_component
    demo_InputOutputToMessages demo_wrapper demo_wrapper demo_wrap demo_wrap
    (fixed_tokenizer [1] [true] None) "train.json" "json" None false None
    true (Some 2048) "torchtune.data.AlpacaInstructTemplate" demo_world
  = (Err (ValueError "PackedDataset requires a max_seq_len to be set on the tokenizer."),
     demo_world).
Proof. reflexivity. Qed.

(** * Further properties of the code *)

(** ** How failures of a stage surface *)

Section Propagation.
Context `{Collaborators}.

(** X1: when the validator refuses the two messages, preparation raises the
    validator's exception and stops: the tokenizer state is the one the
    formatter left and the only call logged after formatting is the one to
    the validator. *)
Theorem validator_failure_propagates (ds : AnyDataset) (sample ts : Sample)
    (w w1 : World) (prompt output : pyval) (e : PyError) :
  let messages := [mkMessage "user" prompt (negb (train_on_input_of ds));
                   mkMessage "assistant" output false] in
  transformed ds sample = Ok ts →
  format (template_of ds) ts (column_map_of ds) w = (Ok prompt, w1) →
  ts !! resolved_key (column_map_of ds) "output" = Some output →
  validate_messages messages = Err e →
  prepare_sample ds sample w
    = (Err e, mkWorld (tok w1) (calls w1 ++ [CallValidate messages])).
Proof.
  intros messages Ht Hf Ho Hv. rewrite prepare_sample_run, Ht, Hf.
  cbv zeta. rewrite Ho. fold messages. rewrite Hv. reflexivity.
Qed.

(** X2: when the tokenizer raises, preparation raises the same exception;
    the world keeps the state the tokenizer left and the log shows the
    validator call followed by the failed tokenizer call. *)
Theorem tokenizer_failure_propagates (ds : AnyDataset) (sample ts : Sample)
    (w w1 : World) (prompt output : pyval) (e : PyError) (s : tok_state) :
  let messages := [mkMessage "user" prompt (negb (train_on_input_of ds));
                   mkMessage "assistant" output false] in
  transformed ds sample = Ok ts →
  format (template_of ds) ts (column_map_of ds) w = (Ok prompt, w1) →
  ts !! resolved_key (column_map_of ds) "output" = Some output →
  validate_messages messages = Ok () →
  ModelTokenizer.tokenize_messages (tokenizer_of ds) messages (tok w1) = (Err e, s) →
  prepare_sample ds sample w
    = (Err e, mkWorld s (calls w1 ++ [CallValidate messages;
                                      CallTokenize messages (Err e)])).
Proof.
  intros messages Ht Hf Ho Hv Hk. rewrite prepare_sample_run, Ht, Hf.
  cbv zeta. rewrite Ho. fold messages. rewrite Hv, Hk. cbn [fst snd].
  by rewrite <- app_assoc.
Qed.

(** X3: a transform that raises ends preparation at once: its exception
    is the outcome and the world is untouched, so neither the formatter nor
    the validator nor the tokenizer ran on this sample. *)
Theorem transform_failure_propagates (ds : AnyDataset) (sample : Sample)
    (w : World) (transform : Sample → Res Sample) (e : PyError) :
  transform_of ds = Some transform →
  transform sample = Err e →
  prepare_sample ds sample w = (Err e, w).
Proof.
  intros Htr He. rewrite prepare_sample_run. unfold transformed.
  rewrite Htr, He. reflexivity.
Qed.

End Propagation.

Lemma validator_failure_propagates_witness :
  @prepare_sample strict_collaborators (OfISSAIInstructDataset strict_issai)
    demo_sample strict_world
  = (Err (ValueError "invalid messages"),
     @mkWorld strict_collaborators 0%nat [CallValidate demo_messages]).
Proof.
  apply (@validator_failure_propagates strict_collaborators
           (OfISSAIInstructDataset strict_issai) demo_sample demo_sample
           strict_world strict_world
           (VStr (combined_layout (VStr "Summarize") (VStr "Long text")))
           (VStr "Short summary") (ValueError "invalid messages")).
  - reflexivity.
  - vm_compute. reflexivity.
  - reflexivity.
  - reflexivity.
Defined.

Lemma tokenizer_failure_propagates_witness :
  @prepare_sample demo_collaborators (OfISSAIInstructDataset failing_issai)
    demo_sample demo_world
  = (Err (OtherError "TokenizerError"),
     @mkWorld demo_collaborators 1%nat
       [CallValidate demo_messages;
        CallTokenize demo_messages (Err (OtherError "TokenizerError"))]).
Proof.
  apply (@tokenizer_failure_propagates demo_collaborators
           (OfISSAIInstructDataset failing_issai) demo_sample demo_sample
           demo_world demo_world
           (VStr (combined_layout (VStr "Summarize") (VStr "Long text")))
           (VStr "Short summary") (OtherError "TokenizerError") 1%nat).
  - reflexivity.
  - vm_compute. reflexivity.
  - reflexivity.
  - reflexivity.
  - reflexivity.
Defined.

Lemma transform_failure_propagates_witness :
  @prepare_sample demo_collaborators
    (OfISSAIInstructDataset
       (@ISSAIInstructDataset.mk demo_collaborators
          (fixed_tokenizer [1] [true] None) [demo_sample] AlpacaInstructTemplate
          (Some (λ _, Err (OtherError "TransformError"))) None false None))
    demo_sample demo_world
  = (Err (OtherError "TransformError"), demo_world).
Proof.
  apply (@transform_failure_propagates demo_collaborators _ demo_sample demo_world
           (λ _, Err (OtherError "TransformError")) (OtherError "TransformError"));
    reflexivity.
Defined.

(** ** What preparation reads and what it returns *)

Section Reads.
Context `{Collaborators}.

Lemma map_choose (c : bool) (x : Z) (tokens : list Z) :
  map (λ t : Z, if c then x else t) tokens
  = if c then replicate (length tokens) x else tokens.
Proof.
  destruct c; [|apply map_id].
  induction tokens as [|t tokens IH]; simpl; [reflexivity | by rewrite IH].
Qed.


Lemma np_where_single (c : bool) (x : Z) (tokens : list Z) :
  all_fit_int64 tokens = true →
  np_where [c] x tokens = Ok (map (λ t : Z, if c then x else t) tokens).
Proof.
  intros Hfit. unfold np_where. rewrite Hfit.
  destruct (Nat.eqb_spec (length [c]) (length tokens)) as [E|N]; [|reflexivity].
  destruct tokens as [|t [|t' tokens]]; simplify_eq/=. reflexivity.
Qed.

(** X4: the tokens of a returned result are the tokenizer's tokens in
    full, with one label per token: [max_seq_len] plays no part and nothing
    is truncated. *)
Theorem tokens_returned_in_full (ds : AnyDataset) (sample : Sample)
    (w w' : World) (out : gmap string (list Z)) (messages : list Message)
    (tokens : list Z) (mask : list bool) :
  prepare_sample ds sample w = (Ok out, w') →
  last (calls w') = Some (CallTokenize messages (Ok (tokens, mask))) →
  out !! "tokens" = Some tokens
  ∧ ∃ labels : list Z, out !! "labels" = Some labels
                       ∧ length labels = length tokens
  ∧ dom out = {[ "tokens"; "labels" ]}.
Proof.
  intros Hrun Hlast.
  destruct (prepare_sample_Ok _ _ _ _ _ Hrun)
    as (messages' & tokens' & mask' & labels & Hlast' & Hw & Hl & ->).
  rewrite Hlast in Hlast'. injection Hlast' as _ <- <-.
  split; [done|]. exists labels. split; [done|]. split; [done|].
  rewrite dom_insert_L, dom_singleton_L. set_solver.
Qed.

(** X5: with a template of the source and no transform, preparation reads
    the sample only at the three resolved keys: two samples that agree
    there are prepared alike, whatever else they hold. *)
Theorem prepare_reads_resolved_fields (ds : AnyDataset) (s1 s2 : Sample) (w : World) :
  template_of ds = AlpacaInstructTemplate
    ∨ template_of ds = LlamaInstructTemplate →
  transform_of ds = None →
  (∀ name, name ∈ ["instruction"; "input"; "output"] →
     s1 !! resolved_key (column_map_of ds) name
     = s2 !! resolved_key (column_map_of ds) name) →
  prepare_sample ds s1 w = prepare_sample ds s2 w.
Proof.
  intros Htemplate Htr Hagree.
  rewrite !prepare_sample_run. unfold transformed. rewrite Htr.
  destruct Htemplate as [-> | ->];
    rewrite ?alpaca_format_cases, ?llama_format_cases;
    rewrite (Hagree "instruction"), (Hagree "input"), (Hagree "output")
      by set_solver;
    reflexivity.
Qed.

(** X6: with a template of the source, the column map matters only
    through the keys it resolves the three canonical names to: two datasets
    that agree on these and on tokenizer, template, transform and
    train_on_input prepare every sample alike. *)
Theorem column_map_through_resolved_keys (ds1 ds2 : AnyDataset)
    (sample : Sample) (w : World) :
  template_of ds1 = AlpacaInstructTemplate
    ∨ template_of ds1 = LlamaInstructTemplate →
  template_of ds2 = template_of ds1 →
  tokenizer_of ds2 = tokenizer_of ds1 →
  transform_of ds2 = transform_of ds1 →
  train_on_input_of ds2 = train_on_input_of ds1 →
  (∀ name, name ∈ ["instruction"; "input"; "output"] →
     resolved_key (column_map_of ds2) name = resolved_key (column_map_of ds1) name) →
  prepare_sample ds1 sample w = prepare_sample ds2 sample w.
Proof.
  intros Htemplate Ht Hk Htr Htoi Hkeys.
  rewrite !prepare_sample_run.
  replace (transformed ds2 sample) with (transformed ds1 sample)
    by (unfold transformed; by rewrite Htr).
  rewrite Ht, Hk, Htoi.
  destruct (transformed ds1 sample) as [ts|e]; [|reflexivity].
  destruct Htemplate as [-> | ->];
    rewrite ?alpaca_format_cases, ?llama_format_cases;
    rewrite (Hkeys "instruction"), (Hkeys "input"), (Hkeys "output")
      by set_solver;
    reflexivity.
Qed.



(** X9: a mask of a single entry is accepted for any number of tokens
    whose ids fit [int64], and applied to all of them: once every stage
    before it has succeeded, preparation returns the tokens with labels all
    sentinel for [True] and labels equal to the tokens for [False]. *)
Theorem single_mask_broadcast (ds : AnyDataset) (sample ts : Sample)
    (w w1 : World) (prompt output : pyval) (tokens : list Z) (c : bool)
    (s : tok_state) :
  let messages := [mkMessage "user" prompt (negb (train_on_input_of ds));
                   mkMessage "assistant" output false] in
  transformed ds sample = Ok ts →
  format (template_of ds) ts (column_map_of ds) w = (Ok prompt, w1) →
  ts !! resolved_key (column_map_of ds) "output" = Some output →
  validate_messages messages = Ok () →
  ModelTokenizer.tokenize_messages (tokenizer_of ds) messages (tok w1)
    = (Ok (tokens, [c]), s) →
  all_fit_int64 tokens = true →
  (prepare_sample ds sample w).1
  = Ok {[ "tokens" := tokens;
          "labels" := if c then replicate (length tokens) CROSS_ENTROPY_IGNORE_IDX
                      else tokens ]}.
Proof.
  intros messages Ht Hf Ho Hv Hk Hfit. rewrite prepare_sample_run, Ht, Hf.
  cbv zeta. rewrite Ho. fold messages. rewrite Hv, Hk. cbn [fst snd].
  rewrite np_where_single by done.
  rewrite length_map, Nat.eqb_refl, map_choose. reflexivity.
Qed.

End Reads.

Lemma prepare_sample_succeeds_witness :
  let ds := @OfInstructDataset demo_collaborators
              (demo_instruct [1; 2; 3] [true; false; false]) in
  ∃ w', @prepare_sample demo_collaborators ds demo_sample demo_world
        = (Ok {[ "tokens" := [1; 2; 3];
                 "labels" := zip_with (λ (c : bool) (t : Z),
                                         if c then CROSS_ENTROPY_IGNORE_IDX else t)
                               [true; false; false] [1; 2; 3] ]}, w').
Proof.
  intros ds.
  apply (@prepare_sample_succeeds demo_collaborators ds demo_sample demo_sample
           demo_world demo_world
           (VStr (combined_layout (VStr "Summarize") (VStr "Long text")))
           (VStr "Short summary") [1; 2; 3] [true; false; false] 1%nat).
  - reflexivity.
  - vm_compute. reflexivity.
  - reflexivity.
  - reflexivity.
  - reflexivity.
  - reflexivity.
  - reflexivity.
Defined.

Lemma mismatch_error_kind_witness :
  (@prepare_sample demo_collaborators
     (OfISSAIInstructDataset (demo_issai [7] [true; false] AlpacaInstructTemplate))
     demo_sample demo_world).1
  = Err AssertionError.
Proof.
  apply (@mismatch_error_kind demo_collaborators
           (OfISSAIInstructDataset (demo_issai [7] [true; false] AlpacaInstructTemplate))
           demo_sample demo_sample demo_world demo_world
           (VStr (combined_layout (VStr "Summarize") (VStr "Long text")))
           (VStr "Short summary") [7] [true; false] 1%nat).
  - reflexivity.
  - vm_compute. reflexivity.
  - reflexivity.
  - reflexivity.
  - reflexivity.
  - simpl. lia.
  - simpl. lia.
Defined.

Lemma tokens_returned_in_full_witness :
  let out : gmap string (list Z) :=
    {[ "tokens" := [1; 2; 3]; "labels" := [-100; 2; 3] ]} in
  ISSAIInstructDataset.max_seq_len short_issai = Some 2
  ∧ out !! "tokens" = Some [1; 2; 3]
  ∧ ∃ labels : list Z, out !! "labels" = Some labels
                       ∧ length labels = length [1; 2; 3]
  ∧ dom out = {[ "tokens"; "labels" ]}.
Proof.
  intros out. split; [reflexivity|].
  apply (@tokens_returned_in_full demo_collaborators
           (OfISSAIInstructDataset short_issai) demo_sample demo_world
           (@prepare_sample demo_collaborators
              (OfISSAIInstructDataset short_issai) demo_sample demo_world).2
           out demo_messages [1; 2; 3] [true; false; false]).
  - vm_compute. reflexivity.
  - vm_compute. reflexivity.
Defined.

Lemma prepare_reads_resolved_fields_witness :
  let ds := @OfISSAIInstructDataset demo_collaborators
              (demo_issai [1; 2; 3] [true; false; false] AlpacaInstructTemplate) in
  @prepare_sample demo_collaborators ds demo_sample demo_world
  = @prepare_sample demo_collaborators ds demo_sample_with_id demo_world.
Proof.
  intros ds.
  apply (@prepare_reads_resolved_fields demo_collaborators ds
           demo_sample demo_sample_with_id demo_world).
  - left. reflexivity.
  - reflexivity.
  - intros name Hin. apply list_elem_of_In in Hin. simpl in Hin.
    destruct Hin as [<- | [<- | [<- | []]]]; vm_compute; reflexivity.
Defined.

Lemma column_map_through_resolved_keys_witness :
  let with_map (cm : option ColumnMap) :=
    @OfISSAIInstructDataset demo_collaborators
      (@ISSAIInstructDataset.mk demo_collaborators
         (fixed_tokenizer [1; 2; 3] [true; false; false] None) [demo_sample]
         AlpacaInstructTemplate None cm false None) in
  @prepare_sample demo_collaborators (with_map None) demo_sample demo_world
  = @prepare_sample demo_collaborators (with_map (Some ∅)) demo_sample demo_world.
Proof.
  intros with_map.
  apply (@column_map_through_resolved_keys demo_collaborators
           (with_map None) (with_map (Some ∅)) demo_sample demo_world).
  - left. reflexivity.
  - reflexivity.
  - reflexivity.
  - reflexivity.
  - reflexivity.
  - intros name Hin. apply list_elem_of_In in Hin. simpl in Hin.
    destruct Hin as [<- | [<- | [<- | []]]]; vm_compute; reflexivity.
Defined.



Lemma single_mask_broadcast_witness :
  (@prepare_sample demo_collaborators
     (OfISSAIInstructDataset (demo_issai [1; 2; 3] [true] AlpacaInstructTemplate))
     demo_sample demo_world).1
  = Ok {[ "tokens" := [1; 2; 3];
          "labels" := replicate (length [1; 2; 3]) CROSS_ENTROPY_IGNORE_IDX ]}.
Proof.
  apply (@single_mask_broadcast demo_collaborators
           (OfISSAIInstructDataset (demo_issai [1; 2; 3] [true] AlpacaInstructTemplate))
           demo_sample demo_sample demo_world demo_world
           (VStr (combined_layout (VStr "Summarize") (VStr "Long text")))
           (VStr "Short summary") [1; 2; 3] true 1%nat).
  - reflexivity.
  - vm_compute. reflexivity.
  - reflexivity.
  - reflexivity.
  - reflexivity.
  - reflexivity.
Defined.

(** ** More on the templates *)

Section MoreTemplates.
Context `{Collaborators}.

Lemma string_app_assoc (a b c : string) : (a +:+ b) +:+ c = a +:+ (b +:+ c).
Proof.
  induction a as [|x a IH]; [reflexivity|].
  change (String x ((a +:+ b) +:+ c) = String x (a +:+ (b +:+ c))).
  by rewrite IH.
Qed.

(** X10: on a sample that has both resolved fields,
    [LlamaInstructTemplate.format] returns the layout [llama_orig] with the
    instruction and the input in their places, and leaves the world as it
    was. *)
Theorem llama_format_fills_layout (sample : Sample) (cm : option ColumnMap)
    (instruction input : pyval) (w : World) :
  sample !! resolved_key cm "instruction" = Some instruction →
  sample !! resolved_key cm "input" = Some input →
  format LlamaInstructTemplate sample cm w
    = (Ok (VStr (llama_layout instruction input)), w).
Proof.
  intros Hi Hx. rewrite llama_format_cases, Hi, Hx. reflexivity.
Qed.

(** X12: the prompt of [AlpacaInstructTemplate.format] does not record
    where the instruction ends and the input begins: moving a line from the
    end of the instruction to the start of the input gives the same
    prompt. *)
Theorem alpaca_boundary_not_recorded (s1 s2 : Sample) (cm : option ColumnMap)
    (a b c : string) (w : World) :
  s1 !! resolved_key cm "instruction" = Some (VStr (a +:+ newline +:+ b)) →
  s1 !! resolved_key cm "input" = Some (VStr c) →
  s2 !! resolved_key cm "instruction" = Some (VStr a) →
  s2 !! resolved_key cm "input" = Some (VStr (b +:+ newline +:+ c)) →
  format AlpacaInstructTemplate s1 cm w = format AlpacaInstructTemplate s2 cm w
  ∧ is_Ok (format AlpacaInstructTemplate s1 cm w).1 = true.
Proof.
  intros Hi1 Hx1 Hi2 Hx2. rewrite !alpaca_format_cases, Hi1, Hx1, Hi2, Hx2.
  split; [|reflexivity]. do 3 f_equal.
  unfold combined_layout. cbn [py_str]. f_equal.
  by rewrite !string_app_assoc.
Qed.

End MoreTemplates.

Lemma llama_format_fills_layout_witness :
  @format demo_collaborators LlamaInstructTemplate demo_sample None demo_world
  = (Ok (VStr (llama_layout (VStr "Summarize") (VStr "Long text"))), demo_world).
Proof.
  apply (@llama_format_fills_layout demo_collaborators demo_sample None
           (VStr "Summarize") (VStr "Long text") demo_world); reflexivity.
Defined.

Lemma alpaca_boundary_not_recorded_witness :
  let s1 : Sample := {[ "instruction" := VStr ("Summarize" +:+ newline +:+ "briefly");
                        "input" := VStr "Long text" ]} in
  let s2 : Sample := {[ "instruction" := VStr "Summarize";
                        "input" := VStr ("briefly" +:+ newline +:+ "Long text") ]} in
  @format demo_collaborators AlpacaInstructTemplate s1 None demo_world
  = @format demo_collaborators AlpacaInstructTemplate s2 None demo_world
  ∧ is_Ok (@format demo_collaborators AlpacaInstructTemplate s1 None demo_world).1
    = true.
Proof.
  intros s1 s2.
  apply (@alpaca_boundary_not_recorded demo_collaborators s1 s2 None
           "Summarize" "briefly" "Long text" demo_world);
    vm_compute; reflexivity.
Defined.

(** ** Item access *)

Section Items.
Context `{Collaborators}.

Lemma getitem_run (ds : AnyDataset) (index : Z) (w : World) :
  getitem ds index w =
  match data_subscript (data_of ds) index with
  | Ok sample => prepare_sample ds sample w
  | Err e => (Err e, w)
  end.
Proof.
  destruct ds as [d|d]; unfold getitem, data_of, prepare_sample,
    InstructDataset.__getitem__, ISSAIInstructDataset.__getitem__;
    rewrite bind_run; unfold lift;
    destruct (data_subscript _ index); reflexivity.
Qed.

(** X13: an index outside [-len, len) raises [IndexError] and leaves the
    world as it was: no sample is prepared and no collaborator is
    called. *)
Theorem getitem_out_of_range (ds : AnyDataset) (index : Z) (w : World) :
  index < - Z.of_nat (length (data_of ds))
    ∨ Z.of_nat (length (data_of ds)) <= index →
  getitem ds index w = (Err IndexError, w).
Proof.
  intros Hout. rewrite getitem_run. unfold data_subscript.
  destruct (Z.ltb_spec index 0);
    destruct (Z.leb_spec 0 (index + Z.of_nat (length (data_of ds))));
    destruct (Z.ltb_spec (index + Z.of_nat (length (data_of ds)))
                (Z.of_nat (length (data_of ds))));
    destruct (Z.leb_spec 0 index);
    destruct (Z.ltb_spec index (Z.of_nat (length (data_of ds))));
    simpl; try reflexivity; lia.
Qed.

(** X14: item access prepares the record at that position, and a record
    can equally be reached by counting from the end: for the record at
    position i, both [ds[i]] and [ds[i - len]] are the preparation of that
    record. *)
Theorem getitem_in_range (ds : AnyDataset) (i : nat) (sample : Sample) (w : World) :
  data_of ds !! i = Some sample →
  getitem ds (Z.of_nat i) w = prepare_sample ds sample w
  ∧ getitem ds (Z.of_nat i - Z.of_nat (length (data_of ds))) w
    = prepare_sample ds sample w.
Proof.
  intros Hi. pose proof (lookup_lt_Some _ _ _ Hi) as Hlt.
  rewrite !getitem_run. unfold data_subscript. split.
  - destruct (Z.ltb_spec (Z.of_nat i) 0); [lia|].
    destruct (Z.leb_spec 0 (Z.of_nat i)); [|lia].
    destruct (Z.ltb_spec (Z.of_nat i) (Z.of_nat (length (data_of ds)))); [|lia].
    simpl. rewrite Nat2Z.id, Hi. reflexivity.
  - destruct (Z.ltb_spec (Z.of_nat i - Z.of_nat (length (data_of ds))) 0); [|lia].
    replace (Z.of_nat i - Z.of_nat (length (data_of ds))
             + Z.of_nat (length (data_of ds))) with (Z.of_nat i) by lia.
    destruct (Z.leb_spec 0 (Z.of_nat i)); [|lia].
    destruct (Z.ltb_spec (Z.of_nat i) (Z.of_nat (length (data_of ds)))); [|lia].
    simpl. rewrite Nat2Z.id, Hi. reflexivity.
Qed.

End Items.

Lemma getitem_out_of_range_witness :
  @getitem demo_collaborators (OfInstructDataset three_records) 3 demo_world
  = (Err IndexError, demo_world).
Proof.
  apply (@getitem_out_of_range demo_collaborators
           (OfInstructDataset three_records) 3 demo_world).
  right. simpl. lia.
Defined.

Lemma getitem_in_range_witness :
  @getitem demo_collaborators (OfInstructDataset three_records) (Z.of_nat 2) demo_world
  = @prepare_sample demo_collaborators (OfInstructDataset three_records)
      demo_sample demo_world
  ∧ @getitem demo_collaborators (OfInstructDataset three_records)
      (Z.of_nat 2 - Z.of_nat (length (data_of (OfInstructDataset three_records))))
      demo_world
    = @prepare_sample demo_collaborators (OfInstructDataset three_records)
        demo_sample demo_world.
Proof.
  apply (@getitem_in_range demo_collaborators
           (OfInstructDataset three_records) 2 demo_sample demo_world).
  reflexivity.
Defined.

(** ** More on construction *)

Section MoreConstruction.
Context `{Collaborators}.

(** X15: with a template that passes its check, [InstructDataset.__init__]
    stands or falls with [load_dataset]: the loader's exception is the
    outcome, and otherwise the dataset holds exactly the loaded records, so
    its length is theirs. *)
Theorem InstructDataset_init_loads (template instance : TemplateClass)
    (data_files source : string) (tokenizer : ModelTokenizer.t)
    (transform : option (Sample → Res Sample))
    (column_map : option ColumnMap) (train_on_input : bool)
    (max_seq_len : option Z) :
  instantiate template = Ok instance →
  isinstance instance AlpacaInstructTemplate_id = true →
  match load_dataset source data_files with
  | Err e =>
      InstructDataset.__init__ data_files tokenizer source template transform
        column_map train_on_input max_seq_len = Err e
  | Ok data =>
      ∃ ds, InstructDataset.__init__ data_files tokenizer source template
              transform column_map train_on_input max_seq_len = Ok ds
            ∧ InstructDataset._data ds = data
            ∧ InstructDataset.__len__ ds = length data
            ∧ same_configuration ds
                (ISSAIInstructDataset.mk tokenizer data template transform
                   column_map train_on_input max_seq_len)
  end.
Proof.
  intros Hinst Hisa. unfold InstructDataset.__init__.
  rewrite Hinst. cbv [mbind Res_bind]. rewrite Hisa. cbv [negb].
  destruct (load_dataset source data_files) as [data|e]; [|reflexivity].
  eexists. split; [reflexivity|]. repeat split.
Qed.

Section WithBuilders.
Variable _get_component_from_path : string → Res TemplateClass.
Variable InputOutputToMessages : bool → option ColumnMap → option string → Res unit.
Variables PackedT NotPackedT : Type.
Variable PackedDataset : AnyDataset → option Z → option Z → M PackedT.
Variable NotPackedDataset : AnyDataset → option Z → option Z → M NotPackedT.

(** X17: [instruct_dataset] cannot be used with a template whose instance
    is not an [AlpacaInstructTemplate]: whatever [packed] is, it raises the
    [ValueError] of [InstructDataset.__init__] and touches nothing. *)
Theorem instruct_dataset_rejects_non_alpaca (tokenizer : ModelTokenizer.t)
    (data_files source template : string) (column_map : option ColumnMap)
    (train_on_input : bool) (new_system_prompt : option string)
    (packed : bool) (max_seq_len : option Z) (t instance : TemplateClass)
    (w : World) :
  InputOutputToMessages train_on_input column_map new_system_prompt = Ok () →
  _get_component_from_path template = Ok t →
  instantiate t = Ok instance →
  isinstance instance AlpacaInstructTemplate_id = false →
  instruct_dataset _get_component_from_path InputOutputToMessages
    PackedT NotPackedT PackedDataset NotPackedDataset
    tokenizer data_files source column_map train_on_input new_system_prompt
    packed max_seq_len template w
  = (Err (ValueError "template must be an InstructTemplate class"), w).
Proof.
  intros Hio Hget Hinst Hisa. unfold instruct_dataset.
  rewrite Hio, Hget. unfold InstructDataset.__init__.
  cbv [mbind M_bind Res_bind lift raise].
  rewrite Hinst. cbv beta iota. rewrite Hisa. reflexivity.
Qed.

(** X18: when [instruct_dataset] packs, the length handed to
    [PackedDataset] is the tokenizer's [max_seq_len], not the builder's own
    [max_seq_len] argument, and no padding index is passed; the builder
    returns what [PackedDataset] returns. *)
Theorem instruct_dataset_packs_with_tokenizer_length (tokenizer : ModelTokenizer.t)
    (data_files source template : string) (column_map : option ColumnMap)
    (train_on_input : bool) (new_system_prompt : option string)
    (max_seq_len : option Z) (t : TemplateClass) (data : list Sample)
    (n : Z) (w : World) :
  ModelTokenizer.max_seq_len tokenizer = Some n →
  InputOutputToMessages train_on_input column_map new_system_prompt = Ok () →
  _get_component_from_path template = Ok t →
  instantiate t = Ok t →
  isinstance t AlpacaInstructTemplate_id = true →
  load_dataset source data_files = Ok data →
  instruct_dataset _get_component_from_path InputOutputToMessages
    PackedT NotPackedT PackedDataset NotPackedDataset
    tokenizer data_files source column_map train_on_input new_system_prompt
    true max_seq_len template w
  = match PackedDataset
            (OfInstructDataset
               (InstructDataset.mk tokenizer data t None column_map
                  train_on_input max_seq_len))
            (Some n) None w with
    | (Ok p, w') => (Ok (IsPacked PackedT NotPackedT p), w')
    | (Err e, w') => (Err e, w')
    end.
Proof.
  intros Hmax Hio Hget Hinst Hisa Hload. unfold instruct_dataset.
  rewrite Hio, Hget. unfold InstructDataset.__init__.
  cbv [mbind M_bind Res_bind lift raise].
  rewrite Hinst. cbv beta iota. rewrite Hisa. cbv [negb]. cbv beta iota.
  rewrite Hload. cbv beta iota. rewrite Hmax.
  destruct (PackedDataset _ _ _ w) as [[p|e] w']; reflexivity.
Qed.

(** X19: without packing, both builders hand the dataset, their own
    [max_seq_len] argument and the tokenizer's padding index to
    [NotPackedDataset] and return what it returns; the tokenizer's
    [max_seq_len] is not consulted, and the dataset carries no
    transform. *)
Theorem builders_not_packed (tokenizer : ModelTokenizer.t)
    (data_files source template : string) (column_map : option ColumnMap)
    (train_on_input : bool) (new_system_prompt : option string)
    (max_seq_len : option Z) (t : TemplateClass) (loaded data : list Sample)
    (w : World) :
  InputOutputToMessages train_on_input column_map new_system_prompt = Ok () →
  _get_component_from_path template = Ok t →
  instantiate t = Ok t →
  isinstance t AlpacaInstructTemplate_id = true →
  isinstance t InstructTemplate_id = true →
  load_dataset source data_files = Ok loaded →
  instruct_dataset _get_component_from_path InputOutputToMessages
    PackedT NotPackedT PackedDataset NotPackedDataset
    tokenizer data_files source column_map train_on_input new_system_prompt
    false max_seq_len template w
  = match NotPackedDataset
            (OfInstructDataset
               (InstructDataset.mk tokenizer loaded t None column_map
                  train_on_input max_seq_len))
            max_seq_len (Some (ModelTokenizer.pad_id tokenizer)) w with
    | (Ok p, w') => (Ok (IsNotPacked PackedT NotPackedT p), w')
    | (Err e, w') => (Err e, w')
    end
  ∧ issai_instruct_dataset _get_component_from_path
      PackedT NotPackedT PackedDataset NotPackedDataset
      data tokenizer template column_map train_on_input max_seq_len false w
    = match NotPackedDataset
              (OfISSAIInstructDataset
                 (ISSAIInstructDataset.mk tokenizer data t None column_map
                    train_on_input max_seq_len))
              max_seq_len (Some (ModelTokenizer.pad_id tokenizer)) w with
      | (Ok p, w') => (Ok (IsNotPacked PackedT NotPackedT p), w')
      | (Err e, w') => (Err e, w')
      end.
Proof.
  intros Hio Hget Hinst Hisa Hisi Hload. split.
  - unfold instruct_dataset.
    rewrite Hio, Hget. unfold InstructDataset.__init__.
    cbv [mbind M_bind Res_bind lift raise].
    rewrite Hinst. cbv beta iota. rewrite Hisa. cbv [negb]. cbv beta iota.
    rewrite Hload. cbv beta iota.
    destruct (NotPackedDataset _ _ _ w) as [[p|e] w']; reflexivity.
  - unfold issai_instruct_dataset.
    rewrite Hget. unfold ISSAIInstructDataset.__init__.
    cbv [mbind M_bind Res_bind lift raise].
    rewrite Hinst. cbv beta iota. rewrite Hisi. cbv [negb]. cbv beta iota.
    destruct (NotPackedDataset _ _ _ w) as [[p|e] w']; reflexivity.
Qed.

End WithBuilders.
End MoreConstruction.

Lemma InstructDataset_init_loads_witness :
  @InstructDataset.__init__ strict_collaborators "train.csv"
    (ISSAIInstructDataset._tokenizer strict_issai)
    "csv" AlpacaInstructTemplate None None false None
  = Err (OtherError "FileNotFoundError").
Proof.
  apply (@InstructDataset_init_loads strict_collaborators
           AlpacaInstructTemplate AlpacaInstructTemplate "train.csv" "csv"
           (ISSAIInstructDataset._tokenizer strict_issai) None None false None);
    reflexivity.
Defined.

Lemma instruct_dataset_guard_witness :
  @instruct_dataset demo_collaborators demo_get_component
    demo_InputOutputToMessages demo_wrapper demo_wrapper demo_wrap demo_wrap
    (fixed_tokenizer [1] [true] None) "train.json" "json" None false None
    true (Some 2048) "torchtune.data.AlpacaInstructTemplate" demo_world
  = (Err (ValueError "PackedDataset requires a max_seq_len to be set on the tokenizer."),
     demo_world).
Proof.
  apply (@instruct_dataset_guard demo_collaborators demo_get_component
           demo_InputOutputToMessages demo_wrapper demo_wrapper demo_wrap demo_wrap
           (fixed_tokenizer [1] [true] None) "train.json" "json"
           "torchtune.data.AlpacaInstructTemplate" None false None (Some 2048)
           AlpacaInstructTemplate [] demo_world); reflexivity.
Defined.

Lemma instruct_dataset_rejects_non_alpaca_witness :
  @instruct_dataset demo_collaborators demo_get_component
    demo_InputOutputToMessages demo_wrapper demo_wrapper demo_wrap demo_wrap
    (fixed_tokenizer [1] [true] (Some 4096)) "train.json" "json" None false None
    false None "torchtune.data.LlamaInstructTemplate" demo_world
  = (Err (ValueError "template must be an InstructTemplate class"), demo_world).
Proof.
  apply (@instruct_dataset_rejects_non_alpaca demo_collaborators demo_get_component
           demo_InputOutputToMessages demo_wrapper demo_wrapper demo_wrap demo_wrap
           (fixed_tokenizer [1] [true] (Some 4096)) "train.json" "json"
           "torchtune.data.LlamaInstructTemplate" None false None false None
           LlamaInstructTemplate LlamaInstructTemplate demo_world); reflexivity.
Defined.

Lemma instruct_dataset_packs_with_tokenizer_length_witness :
  @instruct_dataset demo_collaborators demo_get_component
    demo_InputOutputToMessages demo_wrapper demo_wrapper demo_wrap demo_wrap
    (fixed_tokenizer [1] [true] (Some 4096)) "train.json" "json" None false None
    true (Some 2048) "torchtune.data.AlpacaInstructTemplate" demo_world
  = (Ok (IsPacked demo_wrapper demo_wrapper
           (OfInstructDataset
              (@InstructDataset.mk demo_collaborators
                 (fixed_tokenizer [1] [true] (Some 4096)) []
                 AlpacaInstructTemplate None None false (Some 2048)),
            Some 4096, None)), demo_world).
Proof.
  apply (@instruct_dataset_packs_with_tokenizer_length demo_collaborators
           demo_get_component demo_InputOutputToMessages
           demo_wrapper demo_wrapper demo_wrap demo_wrap
           (fixed_tokenizer [1] [true] (Some 4096)) "train.json" "json"
           "torchtune.data.AlpacaInstructTemplate" None false None (Some 2048)
           AlpacaInstructTemplate [] 4096 demo_world); reflexivity.
Defined.

Lemma builders_not_packed_witness :
  @instruct_dataset demo_collaborators demo_get_component
    demo_InputOutputToMessages demo_wrapper demo_wrapper demo_wrap demo_wrap
    (fixed_tokenizer [1] [true] None) "train.json" "json" None false None
    false (Some 2048) "torchtune.data.AlpacaInstructTemplate" demo_world
  = (Ok (IsNotPacked demo_wrapper demo_wrapper
           (OfInstructDataset
              (@InstructDataset.mk demo_collaborators
                 (fixed_tokenizer [1] [true] None) []
                 AlpacaInstructTemplate None None false (Some 2048)),
            Some 2048, Some 0)), demo_world)
  ∧ @issai_instruct_dataset demo_collaborators demo_get_component
      demo_wrapper demo_wrapper demo_wrap demo_wrap
      [demo_sample] (fixed_tokenizer [1] [true] None)
      "torchtune.data.AlpacaInstructTemplate" None false (Some 2048) false demo_world
    = (Ok (IsNotPacked demo_wrapper demo_wrapper
             (OfISSAIInstructDataset
                (@ISSAIInstructDataset.mk demo_collaborators
                   (fixed_tokenizer [1] [true] None) [demo_sample]
                   AlpacaInstructTemplate None None false (Some 2048)),
              Some 2048, Some 0)), demo_world).
Proof.
  apply (@builders_not_packed demo_collaborators demo_get_component
           demo_InputOutputToMessages demo_wrapper demo_wrapper demo_wrap demo_wrap
           (fixed_tokenizer [1] [true] None) "train.json" "json"
           "torchtune.data.AlpacaInstructTemplate" None false None (Some 2048)
           AlpacaInstructTemplate [] [demo_sample] demo_world); reflexivity.
Defined.
